(** * Order fulfilment and stock consistency of the inventory backend

    A shallow embedding of the Mongoose models [Product], [Supplier] and
    [Order] and of the route handlers that mutate them, followed by the
    properties of the order-fulfilment core.

    Modelling conventions.
    - A JavaScript [Number] is an integer [Z]: stock levels are counts and
      money amounts are in minor currency units (10.00 is [1000]).
    - A collection is a finite map from document ids to documents; a
      document in memory is the pair of its id and its fields.
    - [doc.save()] runs the validators declared in the schema and either
      rejects with a validation error, leaving the collection as it was,
      or writes the document.  The validators run before the [pre('save')]
      hooks that the schema registers.  String-valued paths that no modelled
      operation assigns (sku, category, unit, ...) are left out of the
      records: their validators give the same verdict before and after.
    - A query builds the document it returns from the stored one: a path
      that the stored document does not set gets its schema default.
    - A handler is a function from the database (and the request) to the
      new database and the response it sends. *)

From stdpp Require Import gmap strings list fin_maps.
From Stdlib Require Import ZArith Lia Ascii DecimalString.

Local Open Scope string_scope.
Local Open Scope Z_scope.

(** ** Exceptions, promises and responses *)

(** What a rejected promise or a [throw] carries. *)
Inductive Exn : Type :=
| Error (message : string)               (* new Error(message) *)
| ValidationError (paths : list string). (* save() rejected: failing paths *)

Inductive Result (A : Type) : Type :=
| Ok (a : A)
| Throw (e : Exn).
Arguments Ok {A} a.
Arguments Throw {A} e.

(** The [message] member of the JSON bodies sent on the error paths. *)
Inductive Message : Type :=
| ServerError                              (* 'Server error' *)
| ErrorMessage (e : Exn)                   (* error.message *)
| ProductNotFoundMsg (product : nat)       (* `Product ${id} not found` *)
| InsufficientStockMsg (name : string) (available : Z)
| ProductNotFound                          (* 'Product not found' *)
| SupplierNotFound                         (* 'Supplier not found' *)
| OrderNotFound                            (* 'Order not found' *)
| NotPending   (* 'Cannot update order that is not in pending status' *)
| OrderRemoved.                            (* 'Order removed' *)

Inductive Response (A : Type) : Type :=
| Json (status : nat) (body : A)           (* res.status(s).json(doc) *)
| JsonMessage (status : nat) (m : Message).
Arguments Json {A} status body.
Arguments JsonMessage {A} status m.

(** ** Schema validation and [save] *)

(** A [min: [0, ...]] validator on a Number path. *)
Definition checkMin (path : string) (bound v : Z) : list string :=
  if v <? bound then [path] else [].

Definition checkMax (path : string) (bound v : Z) : list string :=
  if bound <? v then [path] else [].

(** An [enum: [...]] validator on a String path. *)
Definition checkEnum (path : string) (values : list string) (v : string)
  : list string :=
  if bool_decide (v ∈ values) then [] else [path].

Definition save {A : Type} (validate : A -> list string)
    (coll : gmap nat A) (id : nat) (doc : A) : Result (gmap nat A) :=
  match validate doc with
  | [] => Ok (<[id := doc]> coll)
  | paths => Throw (ValidationError paths)
  end.

(** ** Product *)

Module Product.

Record t : Type := mk {
  name : string;
  price : Z;
  cost : Z;
  stockQuantity : Z;
  minStockLevel : Z;
  supplier : nat;
  isActive : bool
}.

Definition set_stockQuantity (this : t) (v : Z) : t :=
  {| name := name this; price := price this; cost := cost this;
     stockQuantity := v; minStockLevel := minStockLevel this;
     supplier := supplier this; isActive := isActive this |}.

Definition validate (this : t) : list string :=
  checkMin "price" 0 (price this) ++
  checkMin "cost" 0 (cost this) ++
  checkMin "stockQuantity" 0 (stockQuantity this) ++
  checkMin "minStockLevel" 0 (minStockLevel this).

Definition totalValue (this : t) : Z := price this * stockQuantity this.

Definition isLowStock (this : t) : bool :=
  stockQuantity this <=? minStockLevel this.

(** [updateStock(quantity, operation = 'add')]; [None] is an omitted
    operation argument. *)
Definition updateStock (coll : gmap nat t) (id : nat) (this : t)
    (quantity : Z) (operation : option string) : Result (gmap nat t) :=
  let operation := default "add" operation in
  if decide (operation = "add") then
    save validate coll id
      (set_stockQuantity this (stockQuantity this + quantity))
  else if decide (operation = "subtract") then
    if stockQuantity this >=? quantity then
      save validate coll id
        (set_stockQuantity this (stockQuantity this - quantity))
    else Throw (Error "Insufficient stock")
  else save validate coll id this.

End Product.

(** ** Supplier *)

Module Supplier.

Record t : Type := mk {
  name : string;
  code : string;
  creditLimit : Z;
  currentBalance : Z;
  rating : Z;
  isActive : bool
}.

Definition set_currentBalance (this : t) (v : Z) : t :=
  {| name := name this; code := code this; creditLimit := creditLimit this;
     currentBalance := v; rating := rating this;
     isActive := isActive this |}.

Definition validate (this : t) : list string :=
  checkMin "creditLimit" 0 (creditLimit this) ++
  checkMin "rating" 1 (rating this) ++
  checkMax "rating" 5 (rating this).

Definition availableCredit (this : t) : Z :=
  Z.max 0 (creditLimit this - currentBalance this).

Definition updateBalance (coll : gmap nat t) (id : nat) (this : t)
    (amount : Z) (operation : option string) : Result (gmap nat t) :=
  let operation := default "add" operation in
  if decide (operation = "add") then
    save validate coll id
      (set_currentBalance this (currentBalance this + amount))
  else if decide (operation = "subtract") then
    save validate coll id
      (set_currentBalance this (Z.max 0 (currentBalance this - amount)))
  else save validate coll id this.

Definition isCreditLimitExceeded (this : t) (amount : Z) : bool :=
  creditLimit this <? currentBalance this + amount.

End Supplier.

(** ** Dates *)

(** A [Date] in local time, by the calendar fields its getters return and
    the milliseconds elapsed since local midnight.  [month] is zero-based,
    as [getMonth()] returns it.  Two dates compare as their instants do:
    field by field, most significant first. *)
Record JsDate : Type := mkDate {
  getFullYear : nat;
  getMonth : nat;
  getDate : nat;
  msOfDay : N
}.

(** [new Date(year, month, date)]: local midnight of that day.  The handler
    also passes [date + 1], the midnight that ends the day. *)
Definition newDate (year month date : nat) : JsDate :=
  mkDate year month date 0%N.

Definition dateLtb (a b : JsDate) : bool :=
  let lt x y := Nat.ltb x y in
  let eq x y := Nat.eqb x y in
  lt (getFullYear a) (getFullYear b) ||
  (eq (getFullYear a) (getFullYear b) &&
   (lt (getMonth a) (getMonth b) ||
    (eq (getMonth a) (getMonth b) &&
     (lt (getDate a) (getDate b) ||
      (eq (getDate a) (getDate b) && N.ltb (msOfDay a) (msOfDay b)))))).

(** [$gte] *)
Definition dateGeb (a b : JsDate) : bool := negb (dateLtb a b).

(** ** Strings of numbers *)

(** [String(n)] for a non-negative integer. *)
Definition String_ (n : nat) : string :=
  NilEmpty.string_of_uint (Nat.to_uint n).

Fixpoint repeatChar (c : Ascii.ascii) (n : nat) : string :=
  match n with
  | O => EmptyString
  | S n' => String c (repeatChar c n')
  end.

(** [s.padStart(targetLength, c)] for a one-character filler. *)
Definition padStart (s : string) (targetLength : nat) (c : Ascii.ascii) : string :=
  (repeatChar c (targetLength - String.length s) ++ s)%string.

(** ** Order *)

Module OrderItem.

Record t : Type := mk {
  product : nat;
  quantity : Z;
  price : Z;
  total : Z
}.

Definition validate (this : t) : list string :=
  checkMin "items.quantity" 1 (quantity this) ++
  checkMin "items.price" 0 (price this) ++
  checkMin "items.total" 0 (total this).

End OrderItem.

Module Order.

(** The customer snapshot; an absent member is the empty string, which
    the [required] validator rejects as well. *)
Record Customer : Type := mkCustomer {
  name : string;
  email : string;
  phone : string
}.

(** The value of the path [status], in a request and in a document:
    [undefined] (the member is absent, the path is not set), [null] or a
    string.  (Mongoose casts a number or a boolean to a string, which is no
    declared status, and fails to cast an array or an object: the save is
    rejected in both cases, as for a string outside the enum.) *)
Inductive StatusValue : Type :=
| Undefined
| Null
| Str (s : string).

#[global] Instance StatusValue_eq_dec : EqDecision StatusValue.
Proof. solve_decision. Defined.

Record t : Type := mk {
  orderNumber : string;
  customer : Customer;
  items : list OrderItem.t;
  subtotal : Z;
  tax : Z;
  shipping : Z;
  total : Z;
  status : StatusValue;
  paymentStatus : string;
  paymentMethod : option string;
  notes : option string;
  createdBy : nat;
  shippedAt : option JsDate;
  deliveredAt : option JsDate;
  createdAt : JsDate
}.

Definition statusEnum : list string :=
  ["pending"; "confirmed"; "processing"; "shipped"; "delivered";
   "cancelled"].

Definition paymentStatusEnum : list string :=
  ["pending"; "paid"; "failed"; "refunded"].

Definition paymentMethodEnum : list string :=
  ["cash"; "credit_card"; "bank_transfer"; "online_payment"].

Definition checkRequired (path : string) (v : string) : list string :=
  if decide (v = "") then [path] else [].

Definition validate (this : t) : list string :=
  checkRequired "orderNumber" (orderNumber this) ++
  checkRequired "customer.name" (name (customer this)) ++
  checkRequired "customer.email" (email (customer this)) ++
  checkRequired "customer.phone" (phone (customer this)) ++
  concat (map OrderItem.validate (items this)) ++
  checkMin "subtotal" 0 (subtotal this) ++
  checkMin "tax" 0 (tax this) ++
  checkMin "shipping" 0 (shipping this) ++
  checkMin "total" 0 (total this) ++
  match status this with
  | Str s => checkEnum "status" statusEnum s
  | Null => []
  | Undefined => []
  end ++
  checkEnum "paymentStatus" paymentStatusEnum (paymentStatus this) ++
  match paymentMethod this with
  | Some m => checkEnum "paymentMethod" paymentMethodEnum m
  | None => ["paymentMethod"]
  end ++
  match notes this with
  | Some n => if Nat.ltb 500 (String.length n) then ["notes"] else []
  | None => []
  end.

Definition set_orderNumber (this : t) (v : string) : t :=
  mk v (customer this) (items this) (subtotal this) (tax this)
     (shipping this) (total this) (status this) (paymentStatus this)
     (paymentMethod this) (notes this) (createdBy this) (shippedAt this)
     (deliveredAt this) (createdAt this).

Definition set_subtotal (this : t) (v : Z) : t :=
  mk (orderNumber this) (customer this) (items this) v (tax this)
     (shipping this) (total this) (status this) (paymentStatus this)
     (paymentMethod this) (notes this) (createdBy this) (shippedAt this)
     (deliveredAt this) (createdAt this).

Definition set_total (this : t) (v : Z) : t :=
  mk (orderNumber this) (customer this) (items this) (subtotal this)
     (tax this) (shipping this) v (status this) (paymentStatus this)
     (paymentMethod this) (notes this) (createdBy this) (shippedAt this)
     (deliveredAt this) (createdAt this).

Definition set_status (this : t) (v : StatusValue) : t :=
  mk (orderNumber this) (customer this) (items this) (subtotal this)
     (tax this) (shipping this) (total this) v (paymentStatus this)
     (paymentMethod this) (notes this) (createdBy this) (shippedAt this)
     (deliveredAt this) (createdAt this).

Definition set_shippedAt (this : t) (v : option JsDate) : t :=
  mk (orderNumber this) (customer this) (items this) (subtotal this)
     (tax this) (shipping this) (total this) (status this)
     (paymentStatus this) (paymentMethod this) (notes this)
     (createdBy this) v (deliveredAt this) (createdAt this).

Definition set_deliveredAt (this : t) (v : option JsDate) : t :=
  mk (orderNumber this) (customer this) (items this) (subtotal this)
     (tax this) (shipping this) (total this) (status this)
     (paymentStatus this) (paymentMethod this) (notes this)
     (createdBy this) (shippedAt this) v (createdAt this).

(** The document that a query builds from a stored one: a path that the
    stored document does not set gets its schema default.  Of the paths
    with a default, [status] is the one a modelled operation can unset. *)
Definition hydrate (stored : t) : t :=
  match status stored with
  | Undefined => set_status stored (Str "pending")
  | _ => stored
  end.

Definition findById (coll : gmap nat t) (id : nat) : option t :=
  hydrate <$> coll !! id.

(** The filter of the hook's count query:
    [createdAt >= new Date(y, m, d)] and [createdAt < new Date(y, m, d + 1)]. *)
Definition createdOn (date : JsDate) (o : t) : bool :=
  dateGeb (createdAt o)
    (newDate (getFullYear date) (getMonth date) (getDate date)) &&
  dateLtb (createdAt o)
    (newDate (getFullYear date) (getMonth date) (getDate date + 1)).

Definition countDocuments (P : t -> bool) (coll : gmap nat t) : nat :=
  size (filter (fun kv => P kv.2 = true) coll).

(** The number the [pre('save')] hook assigns to a new document. *)
Definition generateOrderNumber (coll : gmap nat t) (date : JsDate)
  : string :=
  let year := String_ (getFullYear date) in
  let month := padStart (String_ (getMonth date + 1)) 2 "0"%char in
  let day := padStart (String_ (getDate date)) 2 "0"%char in
  let todayOrders := countDocuments (createdOn date) coll in
  ("ORD-" ++ year ++ month ++ day ++ "-" ++
   padStart (String_ (todayOrders + 1)) 3 "0"%char)%string.

Definition calculateTotals (this : t) : t :=
  let this :=
    set_subtotal this
      (fold_left (fun sum item => sum + OrderItem.total item)
                 (items this) 0) in
  set_total this (subtotal this + tax this + shipping this).

Definition updateStatus (coll : gmap nat t) (id : nat) (this : t)
    (newStatus : StatusValue) (now : JsDate) : Result (gmap nat t) :=
  let this := set_status this newStatus in
  let this :=
    if decide (newStatus = Str "shipped") then set_shippedAt this (Some now)
    else if decide (newStatus = Str "delivered")
         then set_deliveredAt this (Some now)
         else this in
  save validate coll id this.

(** The argument of [Order.create] in the order handler. *)
Record Draft : Type := mkDraft {
  d_customer : Customer;
  d_items : list OrderItem.t;
  d_subtotal : Z;
  d_tax : Z;
  d_shipping : Z;
  d_total : Z;
  d_paymentMethod : option string;
  d_notes : option string;
  d_createdBy : nat
}.

(** [Order.create(draft)] at time [now]: schema defaults, validation, the
    [pre('save')] hook that assigns the order number, the unique index on
    [orderNumber], and the insertion under a new id.  Mongoose's own
    validation is the first [pre('save')] hook: it checks the document
    before the schema's hook has run, while [orderNumber], which only that
    hook assigns, is still missing. *)
Definition create (coll : gmap nat t) (now : JsDate) (d : Draft)
  : Result (gmap nat t * nat) :=
  let doc :=
    mk "" (d_customer d) (d_items d) (d_subtotal d) (d_tax d)
       (d_shipping d) (d_total d) (Str "pending") "pending"
       (d_paymentMethod d) (d_notes d) (d_createdBy d) None None now in
  match validate doc with
  | [] =>
      let doc := set_orderNumber doc (generateOrderNumber coll now) in
      if bool_decide
           (map_Exists (fun _ o => orderNumber o = orderNumber doc) coll)
      then Throw (Error "E11000 duplicate key error")
      else
        let id := fresh (dom coll) in
        Ok (<[id := doc]> coll, id)
  | paths => Throw (ValidationError paths)
  end.

End Order.

(** ** The database and the route handlers *)

Record Db : Type := mkDb {
  products : gmap nat Product.t;
  suppliers : gmap nat Supplier.t;
  orders : gmap nat Order.t
}.

Definition set_products (db : Db) (ps : gmap nat Product.t) : Db :=
  mkDb ps (suppliers db) (orders db).

Definition set_suppliers (db : Db) (ss : gmap nat Supplier.t) : Db :=
  mkDb (products db) ss (orders db).

Definition set_orders (db : Db) (os : gmap nat Order.t) : Db :=
  mkDb (products db) (suppliers db) os.

(** [v || 0] for a member of the request body that may be absent. *)
Definition orZero (v : option Z) : Z := default 0 v.

Module Routes.

(** [PUT /api/products/:id/stock] *)
Definition putProductStock (db : Db) (id : nat) (quantity : Z)
    (operation : option string) : Db * Response (option Product.t) :=
  match products db !! id with
  | Some product =>
      match Product.updateStock (products db) id product quantity
              operation with
      | Ok ps => (set_products db ps, Json 200 (ps !! id))
      | Throw e => (db, JsonMessage 500 (ErrorMessage e))
      end
  | None => (db, JsonMessage 404 ProductNotFound)
  end.

(** [PUT /api/suppliers/:id/balance] *)
Definition putSupplierBalance (db : Db) (id : nat) (amount : Z)
    (operation : option string) : Db * Response (option Supplier.t) :=
  match suppliers db !! id with
  | Some supplier =>
      match Supplier.updateBalance (suppliers db) id supplier amount
              operation with
      | Ok ss => (set_suppliers db ss, Json 200 (ss !! id))
      | Throw _ => (db, JsonMessage 500 ServerError)
      end
  | None => (db, JsonMessage 404 SupplierNotFound)
  end.

(** One requested line of [POST /api/orders]. *)
Record ReqItem : Type := mkReqItem {
  product : nat;
  quantity : Z
}.

Record OrderBody : Type := mkOrderBody {
  customer : Order.Customer;
  items : list ReqItem;
  tax : option Z;
  shipping : option Z;
  paymentMethod : option string;
  notes : option string
}.

(** How the [for (const item of items)] loop of the order handler ends:
    it runs to completion, or a [return res.status(...)] (or the
    [catch]) has answered the request. *)
Inductive Loop : Type :=
| Completed (orderItems : list OrderItem.t) (subtotal : Z)
| Returned (status : nat) (m : Message).

Fixpoint reserveItems (ps : gmap nat Product.t) (items : list ReqItem)
    (orderItems : list OrderItem.t) (subtotal : Z)
  : gmap nat Product.t * Loop :=
  match items with
  | [] => (ps, Completed orderItems subtotal)
  | item :: rest =>
      match ps !! product item with
      | None => (ps, Returned 400 (ProductNotFoundMsg (product item)))
      | Some p =>
          if Product.stockQuantity p <? quantity item then
            (ps, Returned 400
                   (InsufficientStockMsg (Product.name p)
                      (Product.stockQuantity p)))
          else
            let itemTotal := Product.price p * quantity item in
            let subtotal := subtotal + itemTotal in
            let orderItems :=
              (orderItems ++
               [OrderItem.mk (product item) (quantity item)
                  (Product.price p) itemTotal])%list in
            match Product.updateStock ps (product item) p (quantity item)
                    (Some "subtract") with
            | Ok ps' => reserveItems ps' rest orderItems subtotal
            | Throw _ => (ps, Returned 500 ServerError)
            end
      end
  end.

(** [POST /api/orders], for the authenticated user [user]. *)
Definition postOrder (db : Db) (user : nat) (body : OrderBody)
    (now : JsDate) : Db * Response (option Order.t) :=
  match reserveItems (products db) (items body) [] 0 with
  | (ps, Returned status m) => (set_products db ps, JsonMessage status m)
  | (ps, Completed orderItems subtotal) =>
      let total := subtotal + orZero (tax body) + orZero (shipping body) in
      match Order.create (orders db) now
              (Order.mkDraft (customer body) orderItems subtotal
                 (orZero (tax body)) (orZero (shipping body)) total
                 (paymentMethod body) (notes body) user) with
      | Ok (os, id) =>
          (mkDb ps (suppliers db) os, Json 201 (Order.findById os id))
      | Throw _ => (set_products db ps, JsonMessage 500 ServerError)
      end
  end.

(** [PUT /api/orders/:id/status] *)
Definition putOrderStatus (db : Db) (id : nat) (status : Order.StatusValue)
    (now : JsDate) : Db * Response (option Order.t) :=
  match Order.findById (orders db) id with
  | Some order =>
      match Order.updateStatus (orders db) id order status now with
      | Ok os => (set_orders db os, Json 200 (Order.findById os id))
      | Throw _ => (db, JsonMessage 500 ServerError)
      end
  | None => (db, JsonMessage 404 OrderNotFound)
  end.

(** The members of the request body of [PUT /api/orders/:id] that
    [Object.assign] copies onto the order; [None] is an absent member. *)
Record OrderPatch : Type := mkOrderPatch {
  patch_customer : option Order.Customer;
  patch_items : option (list OrderItem.t);
  patch_subtotal : option Z;
  patch_tax : option Z;
  patch_shipping : option Z;
  patch_total : option Z;
  patch_status : option string;
  patch_paymentStatus : option string;
  patch_paymentMethod : option string;
  patch_notes : option string
}.

Definition assign (order : Order.t) (body : OrderPatch) : Order.t :=
  Order.mk (Order.orderNumber order)
    (default (Order.customer order) (patch_customer body))
    (default (Order.items order) (patch_items body))
    (default (Order.subtotal order) (patch_subtotal body))
    (default (Order.tax order) (patch_tax body))
    (default (Order.shipping order) (patch_shipping body))
    (default (Order.total order) (patch_total body))
    (match patch_status body with
     | Some s => Order.Str s
     | None => Order.status order
     end)
    (default (Order.paymentStatus order) (patch_paymentStatus body))
    (match patch_paymentMethod body with
     | Some m => Some m
     | None => Order.paymentMethod order
     end)
    (match patch_notes body with
     | Some n => Some n
     | None => Order.notes order
     end)
    (Order.createdBy order) (Order.shippedAt order)
    (Order.deliveredAt order) (Order.createdAt order).

(** [PUT /api/orders/:id] *)
Definition putOrder (db : Db) (id : nat) (body : OrderPatch)
  : Db * Response (option Order.t) :=
  match Order.findById (orders db) id with
  | Some order =>
      if negb (bool_decide (Order.status order = Order.Str "pending")) then
        (db, JsonMessage 400 NotPending)
      else
        let order := Order.calculateTotals (assign order body) in
        match save Order.validate (orders db) id order with
        | Ok os => (set_orders db os, Json 200 (Order.findById os id))
        | Throw _ => (db, JsonMessage 500 ServerError)
        end
  | None => (db, JsonMessage 404 OrderNotFound)
  end.

(** The stock-restoring loop of the delete handler; an exception thrown
    by [updateStock] leaves the loop with the stock as restored so far. *)
Fixpoint restoreItems (ps : gmap nat Product.t) (items : list OrderItem.t)
  : Result (gmap nat Product.t) * gmap nat Product.t :=
  match items with
  | [] => (Ok ps, ps)
  | item :: rest =>
      match ps !! OrderItem.product item with
      | Some p =>
          match Product.updateStock ps (OrderItem.product item) p
                  (OrderItem.quantity item) (Some "add") with
          | Ok ps' => restoreItems ps' rest
          | Throw e => (Throw e, ps)
          end
      | None => restoreItems ps rest
      end
  end.

(** [DELETE /api/orders/:id] *)
Definition deleteOrder (db : Db) (id : nat) : Db * Response unit :=
  match Order.findById (orders db) id with
  | Some order =>
      let restored :=
        if bool_decide (Order.status order = Order.Str "pending")
           || bool_decide (Order.status order = Order.Str "confirmed")
        then restoreItems (products db) (Order.items order)
        else (Ok (products db), products db) in
      match restored with
      | (Ok ps, _) =>
          (mkDb ps (suppliers db) (delete id (orders db)),
           JsonMessage 200 OrderRemoved)
      | (Throw _, ps) => (set_products db ps, JsonMessage 500 ServerError)
      end
  | None => (db, JsonMessage 404 OrderNotFound)
  end.

End Routes.

(** ** Sequences of stock movements *)

(** A call of the stock route: a reservation ([subtract]) or a release
    ([add]) of [quantity] units of product [id]. *)
Inductive StockOp : Type :=
| Reserve (id : nat) (quantity : Z)
| Release (id : nat) (quantity : Z).

Definition opQuantity (op : StockOp) : Z :=
  match op with
  | Reserve _ q => q
  | Release _ q => q
  end.

Definition applyStockOp (db : Db) (op : StockOp) : Db :=
  match op with
  | Reserve id q => (Routes.putProductStock db id q (Some "subtract")).1
  | Release id q => (Routes.putProductStock db id q (Some "add")).1
  end.

(** The database after each call of a sequence of calls. *)
Fixpoint stockTrace (db : Db) (ops : list StockOp) : list Db :=
  match ops with
  | [] => []
  | op :: rest =>
      let db' := applyStockOp db op in
      db' :: stockTrace db' rest
  end.

Definition stockNonneg (db : Db) : Prop :=
  forall id p, products db !! id = Some p -> 0 <= Product.stockQuantity p.

(** ** Quantities and amounts of a list of lines *)


(** The on-hand quantity of product [id] after the quantity of every
    requested line that names it has been taken from [stock], line by
    line. *)
Fixpoint reservedStock (id : nat) (lines : list Routes.ReqItem) (stock : Z)
  : Z :=
  match lines with
  | [] => stock
  | line :: rest =>
      reservedStock id rest
        (if decide (Routes.product line = id)
         then stock - Routes.quantity line else stock)
  end.

(** The on-hand quantity of product [id] after the quantity of every line
    of an order that names it has been added to [stock], line by line. *)
Fixpoint releasedStock (id : nat) (items : list OrderItem.t) (stock : Z)
  : Z :=
  match items with
  | [] => stock
  | item :: rest =>
      releasedStock id rest
        (if decide (OrderItem.product item = id)
         then stock + OrderItem.quantity item else stock)
  end.

(** The sum over the lines of unit price times quantity. *)
Fixpoint linesAmount (items : list OrderItem.t) : Z :=
  match items with
  | [] => 0
  | item :: rest =>
      OrderItem.price item * OrderItem.quantity item + linesAmount rest
  end.

(** ** Outcomes of the order handler's loop *)


(** What a completed loop has built for one requested line: the line's
    product and quantity, the product's price as stored when the attempt
    began, and their product as the line total. *)
Definition pricedFrom (ps : gmap nat Product.t) (line : Routes.ReqItem)
    (item : OrderItem.t) : Prop :=
  OrderItem.product item = Routes.product line /\
  OrderItem.quantity item = Routes.quantity line /\
  Product.price <$> ps !! Routes.product line = Some (OrderItem.price item) /\
  OrderItem.total item = OrderItem.price item * OrderItem.quantity item.

(** ** Stored documents that pass their schema *)

Definition allValid {A : Type} (validate : A -> list string)
    (coll : gmap nat A) : Prop :=
  forall id x, coll !! id = Some x -> validate x = [].

Definition productsValid (db : Db) : Prop :=
  forall id p, products db !! id = Some p -> Product.validate p = [].

Definition ordersValid (db : Db) : Prop :=
  forall id o, orders db !! id = Some o -> Order.validate o = [].

(** ** Sample data *)

Definition widget : Product.t := Product.mk "Widget" 1000 600 5 1 7 true.

Definition widgetDb : Db := mkDb {[ 1%nat := widget ]} ∅ ∅.

Definition acme : Supplier.t := Supplier.mk "Acme" "ACME" 100000 2500 3 true.

Definition acmeDb : Db := mkDb ∅ {[ 4%nat := acme ]} ∅.


Definition gadgetInStock : Product.t := Product.mk "Gadget" 500 300 4 1 7 true.


(** Five widgets (10.00 each), four gadgets (5.00 each). *)
Definition shopDb : Db :=
  mkDb (<[1%nat := widget]> {[ 2%nat := gadgetInStock ]}) ∅ ∅.

Definition alice : Order.Customer :=
  Order.mkCustomer "Alice" "alice@example.com" "555-0100".

(** Two widgets and one gadget, tax 2.00, shipping 3.00. *)
Definition twoLines : Routes.OrderBody :=
  Routes.mkOrderBody alice
    [Routes.mkReqItem 1 2; Routes.mkReqItem 2 1]
    (Some 200) (Some 300) (Some "cash") None.

Definition may1 : JsDate := mkDate 2024 4 1 36000000%N.

Definition may1later : JsDate := mkDate 2024 4 1 72000000%N.

Definition may2 : JsDate := mkDate 2024 4 2 7200000%N.

(** A stored pending order for two widgets and one gadget, with its number
    given, as a seeding script inserts it. *)
Definition placedOrder : Order.t :=
  Order.mk "ORD-20240501-001" alice
    [OrderItem.mk 1 2 1000 2000; OrderItem.mk 2 1 500 500]
    2500 200 300 3000 (Order.Str "pending") "pending" (Some "cash") None 9 None
    None may1.

Definition placedId : nat := 0%nat.

(** The shop with that order stored and its quantities reserved: three
    widgets and three gadgets are left. *)
Definition orderedDb : Db :=
  mkDb (<[1%nat := Product.mk "Widget" 1000 600 3 1 7 true]>
          {[ 2%nat := Product.mk "Gadget" 500 300 3 1 7 true ]})
       ∅
       {[ placedId := placedOrder ]}.




(** The same shop with the order shipped on the next day. *)
Definition shippedDb : Db :=
  mkDb (<[1%nat := Product.mk "Widget" 1000 600 3 1 7 true]>
          {[ 2%nat := Product.mk "Gadget" 500 300 3 1 7 true ]})
       ∅
       {[ placedId :=
            Order.mk "ORD-20240501-001" alice
              [OrderItem.mk 1 2 1000 2000; OrderItem.mk 2 1 500 500]
              2500 200 300 3000 (Order.Str "shipped") "pending" (Some "cash")
              None 9 (Some may2) None may1 ]}.

Definition retag : Routes.OrderPatch :=
  Routes.mkOrderPatch None None None (Some 100) None None None None None
    None.

(** ** The order-number format, digit by digit *)

Definition digitChar (n : nat) : Ascii.ascii :=
  Ascii.ascii_of_nat (48 + n mod 10).

(** The [width] low-order decimal digits of [n], most significant first. *)
Fixpoint fixedWidth (width n : nat) : string :=
  match width with
  | O => EmptyString
  | S w => (fixedWidth w (n / 10) ++ String (digitChar n) EmptyString)%string
  end.

(** [ORD-YYYYMMDD-NNN] for the calendar month [month] (1 to 12). *)
Definition formatOrderNumber (year month day seq : nat) : string :=
  ("ORD-" ++ fixedWidth 4 year ++ fixedWidth 2 month ++ fixedWidth 2 day
   ++ "-" ++ fixedWidth 3 seq)%string.


(** A date of the four-digit years. *)
Definition calendarDate (d : JsDate) : Prop :=
  (1000 <= getFullYear d < 100 * 100)%nat /\ (getMonth d < 12)%nat
  /\ (1 <= getDate d <= 31)%nat.


Definition dayOf (d : JsDate) : nat * nat * nat :=
  (getFullYear d, getMonth d, getDate d).


(** * Further parts of the backend *)

(** ** Amounts of an edited order *)

(** The sum of the line totals, as [calculateTotals] reduces them. *)
Fixpoint sumTotals (items : list OrderItem.t) : Z :=
  match items with
  | [] => 0
  | item :: rest => OrderItem.total item + sumTotals rest
  end.

(** A request body of the edit route without its [subtotal] and [total]
    members. *)
Definition withoutTotals (body : Routes.OrderPatch) : Routes.OrderPatch :=
  Routes.mkOrderPatch (Routes.patch_customer body) (Routes.patch_items body)
    None (Routes.patch_tax body) (Routes.patch_shipping body) None
    (Routes.patch_status body) (Routes.patch_paymentStatus body)
    (Routes.patch_paymentMethod body) (Routes.patch_notes body).

(** ** More sample data *)

Definition noPayment : Routes.OrderBody :=
  Routes.mkOrderBody alice
    [Routes.mkReqItem 1 2; Routes.mkReqItem 2 1]
    (Some 200) (Some 300) None None.

(** The stored order, delivered on the next day. *)
Definition deliveredOrder : Order.t :=
  Order.mk "ORD-20240501-001" alice
    [OrderItem.mk 1 2 1000 2000; OrderItem.mk 2 1 500 500]
    2500 200 300 3000 (Order.Str "delivered") "pending" (Some "cash") None 9
    None (Some may2) may1.

Definition deliveredDb : Db :=
  mkDb (<[1%nat := Product.mk "Widget" 1000 600 3 1 7 true]>
          {[ 2%nat := Product.mk "Gadget" 500 300 3 1 7 true ]})
       ∅
       {[ placedId := deliveredOrder ]}.

(** New lines and made-up totals for the stored order. *)
Definition relined : Routes.OrderPatch :=
  Routes.mkOrderPatch None (Some [OrderItem.mk 1 4 1000 4000])
    (Some 1) None None (Some 2) None None None None.

(** ** Supplier and product routes *)

(** A response whose body is a message given by its text. *)
Inductive Reply : Type :=
| Sent (status : nat) (message : string).

Module SupplierRoutes.

(** [DELETE /api/suppliers/:id] *)
Definition deleteSupplier (db : Db) (id : nat) : Db * Reply :=
  match suppliers db !! id with
  | Some supplier =>
      if 0 <? Supplier.currentBalance supplier then
        (db, Sent 400 "Cannot delete supplier with outstanding balance")
      else
        (set_suppliers db (delete id (suppliers db)),
         Sent 200 "Supplier removed")
  | None => (db, Sent 404 "Supplier not found")
  end.

End SupplierRoutes.

Module ProductRoutes.

(** [DELETE /api/products/:id] *)
Definition deleteProduct (db : Db) (id : nat) : Db * Reply :=
  match products db !! id with
  | Some product =>
      (set_products db (delete id (products db)), Sent 200 "Product removed")
  | None => (db, Sent 404 "Product not found")
  end.

(** The documents that [GET /api/products/alerts/low-stock] finds:
    [$expr: { $lte: ['$stockQuantity', '$minStockLevel'] }]. *)
Definition lowStockProducts (db : Db) : gmap nat Product.t :=
  filter (fun kv => Product.stockQuantity kv.2 <= Product.minStockLevel kv.2)
    (products db).

End ProductRoutes.

Definition owing : Supplier.t := Supplier.mk "Owing" "OWE" 100000 2500 3 true.

Definition owingDb : Db := mkDb ∅ {[ 4%nat := owing ]} ∅.

Definition fewWidgets : Product.t := Product.mk "Widget" 1000 600 3 5 7 true.

Definition fewWidgetsDb : Db := mkDb {[ 1%nat := fewWidgets ]} ∅ ∅.

(** ** Users and the authentication middleware *)

Module User.

(** Modelled from the spec: [models/User.js] is not among the sources.  The
    record has the members that the middleware and the user routes read
    and write; the password and its hashing are left out. *)
Record t : Type := mk {
  name : string;
  email : string;
  role : string;
  department : string;
  isActive : bool
}.

End User.

(** [s.split(sep)] for a one-character separator. *)
Fixpoint split (sep : Ascii.ascii) (s : string) : list string :=
  match s with
  | EmptyString => [EmptyString]
  | String c rest =>
      if Ascii.eqb c sep then EmptyString :: split sep rest
      else match split sep rest with
           | piece :: pieces => String c piece :: pieces
           | [] => [String c EmptyString]
           end
  end.

Module Auth.

(** How [protect] ends: it calls [next()] with [req.user] set to the stored
    user, or it answers the request. *)
Inductive Outcome : Type :=
| Next (id : nat) (user : User.t)
| Denied (status : nat) (message : string).

(** How [authorize(...roles)] ends. *)
Inductive Gate : Type :=
| Pass
| Deny (status : nat) (message : string).

Section Protect.

(** [jwt.verify(token, process.env.JWT_SECRET)]: the [id] of the payload of
    a token it accepts, [None] when it throws. *)
Variable verify : string -> option nat.

(** [protect].  [authorization] is [req.headers.authorization].  A missing
    second piece of the header and the empty token make [jwt.verify]
    throw.  After [next()] the final [if (!token)] finds the token set and
    does nothing. *)
Definition protect (users : gmap nat User.t) (authorization : option string)
  : Outcome :=
  match authorization with
  | Some header =>
      if String.prefix "Bearer" header then
        match split " " header !! 1%nat with
        | Some token =>
            if decide (token = "") then
              Denied 401 "Not authorized, token failed"
            else
              match verify token with
              | Some id =>
                  match users !! id with
                  | Some user =>
                      if User.isActive user then Next id user
                      else Denied 401 "User account is deactivated"
                  | None => Denied 401 "User not found"
                  end
              | None => Denied 401 "Not authorized, token failed"
              end
        | None => Denied 401 "Not authorized, token failed"
        end
      else Denied 401 "Not authorized, no token"
  | None => Denied 401 "Not authorized, no token"
  end.

(** [authorize(...roles)] on [req.user]. *)
Definition authorize (roles : list string) (user : option User.t) : Gate :=
  match user with
  | None => Deny 401 "Not authorized"
  | Some user =>
      if bool_decide (User.role user ∈ roles) then Pass
      else Deny 403
             ("User role " +:+ User.role user
              +:+ " is not authorized to access this route")
  end.

(** A route registered as [router.verb(path, protect, handler)] (no
    [roles]) or [router.verb(path, protect, authorize(...roles), handler)]:
    the handler runs, with the id of [req.user], only when the middleware
    before it has called [next()]. *)
Definition guarded {R : Type} (users : gmap nat User.t)
    (authorization : option string) (roles : option (list string))
    (db : Db) (handler : nat -> Db * R) : Db * (Reply + R) :=
  match protect users authorization with
  | Denied status message => (db, inl (Sent status message))
  | Next id user =>
      match
        match roles with
        | Some roles => authorize roles (Some user)
        | None => Pass
        end
      with
      | Pass => let (db', response) := handler id in (db', inr response)
      | Deny status message => (db, inl (Sent status message))
      end
  end.

(** The order routes as [routes/orders.js] registers them. *)
Definition postOrderRoute (users : gmap nat User.t)
    (authorization : option string) (db : Db) (body : Routes.OrderBody)
    (now : JsDate) :=
  guarded users authorization None db
    (fun user => Routes.postOrder db user body now).

Definition putOrderStatusRoute (users : gmap nat User.t)
    (authorization : option string) (db : Db) (id : nat)
    (status : Order.StatusValue) (now : JsDate) :=
  guarded users authorization (Some ["admin"; "manager"]) db
    (fun _ => Routes.putOrderStatus db id status now).

Definition putOrderRoute (users : gmap nat User.t)
    (authorization : option string) (db : Db) (id : nat)
    (body : Routes.OrderPatch) :=
  guarded users authorization (Some ["admin"; "manager"]) db
    (fun _ => Routes.putOrder db id body).

Definition deleteOrderRoute (users : gmap nat User.t)
    (authorization : option string) (db : Db) (id : nat) :=
  guarded users authorization (Some ["admin"]) db
    (fun _ => Routes.deleteOrder db id).

End Protect.

End Auth.

Module UserRoutes.

(** [DELETE /api/users/:id], requested by the user [requester]. *)
Definition deleteUser (users : gmap nat User.t) (requester id : nat)
  : gmap nat User.t * Reply :=
  match users !! id with
  | Some user =>
      if decide (id = requester) then
        (users, Sent 400 "Cannot delete your own account")
      else (delete id users, Sent 200 "User removed")
  | None => (users, Sent 404 "User not found")
  end.

End UserRoutes.

Definition root : User.t := User.mk "Root" "root@example.com" "admin" "IT" true.

Definition mia : User.t :=
  User.mk "Mia" "mia@example.com" "manager" "Sales" true.

Definition staff : gmap nat User.t := <[1%nat := root]> {[ 2%nat := mia ]}.

(** A verifier that accepts two tokens. *)
Definition sampleVerify (token : string) : option nat :=
  if decide (token = "t-root") then Some 1%nat
  else if decide (token = "t-mia") then Some 2%nat
  else None.

(** ** Dashboard statistics *)

Module Dashboard.

(** [status: { $in: ['completed', 'delivered'] }] *)
Definition completed (o : Order.t) : bool :=
  bool_decide
    (Order.status o ∈ [Order.Str "completed"; Order.Str "delivered"]).

(** [$match] followed by [$group: { _id: null, total: { $sum: '$total' } }],
    read as [result[0]?.total || 0]: the sum of the totals of the matching
    orders, 0 when none matches. *)
Definition sumTotal (P : Order.t -> bool) (coll : gmap nat Order.t) : Z :=
  map_fold (fun _ o sum => if P o then Order.total o + sum else sum) 0 coll.

Definition totalRevenue (db : Db) : Z := sumTotal completed (orders db).

(** Revenue since [new Date(now.getFullYear(), now.getMonth(), 1)]. *)
Definition thisMonthRevenue (db : Db) (now : JsDate) : Z :=
  sumTotal
    (fun o =>
       completed o
       && dateGeb (Order.createdAt o)
            (newDate (getFullYear now) (getMonth now) 1))
    (orders db).

Definition totalOrderValue (db : Db) : Z :=
  sumTotal (fun _ => true) (orders db).

Definition totalOrders (db : Db) : nat := size (orders db).

Definition pendingOrders (db : Db) : nat :=
  Order.countDocuments
    (fun o => bool_decide (Order.status o = Order.Str "pending"))
    (orders db).

Definition completedOrders (db : Db) : nat :=
  Order.countDocuments completed (orders db).

Definition totalProducts (db : Db) : nat := size (products db).

Definition lowStockCount (db : Db) : nat :=
  size (ProductRoutes.lowStockProducts db).

End Dashboard.

(** A return of two widgets written as an order line. *)
Definition negativeLine : Routes.OrderBody :=
  Routes.mkOrderBody alice [Routes.mkReqItem 1 (-2)] None None (Some "cash")
    None.

(** ** Sequences of requests *)

Definition suppliersValid (db : Db) : Prop :=
  allValid Supplier.validate (suppliers db).

(** A request to one of the modelled routes, after the middleware. *)
Inductive Request : Type :=
| PutProductStock (id : nat) (quantity : Z) (operation : option string)
| PutSupplierBalance (id : nat) (amount : Z) (operation : option string)
| PostOrder (user : nat) (body : Routes.OrderBody) (now : JsDate)
| PutOrderStatus (id : nat) (status : Order.StatusValue) (now : JsDate)
| PutOrder (id : nat) (body : Routes.OrderPatch)
| DeleteOrder (id : nat)
| DeleteProduct (id : nat)
| DeleteSupplier (id : nat).

(** The database that the handler of a request leaves. *)
Definition handle (db : Db) (request : Request) : Db :=
  match request with
  | PutProductStock id quantity operation =>
      (Routes.putProductStock db id quantity operation).1
  | PutSupplierBalance id amount operation =>
      (Routes.putSupplierBalance db id amount operation).1
  | PostOrder user body now => (Routes.postOrder db user body now).1
  | PutOrderStatus id status now =>
      (Routes.putOrderStatus db id status now).1
  | PutOrder id body => (Routes.putOrder db id body).1
  | DeleteOrder id => (Routes.deleteOrder db id).1
  | DeleteProduct id => (ProductRoutes.deleteProduct db id).1
  | DeleteSupplier id => (SupplierRoutes.deleteSupplier db id).1
  end.

Definition run (db : Db) (requests : list Request) : Db :=
  fold_left handle requests db.

(** * Properties *)

(** ** Validation and [save] *)

Lemma checkMin_nil (path : string) (bound v : Z) :
  checkMin path bound v = [] <-> bound <= v.
Proof.
  unfold checkMin. destruct (Z.ltb_spec v bound); split; intros; try lia; easy.
Qed.

Lemma checkMax_nil (path : string) (bound v : Z) :
  checkMax path bound v = [] <-> v <= bound.
Proof.
  unfold checkMax. destruct (Z.ltb_spec bound v); split; intros; try lia; easy.
Qed.

Lemma checkEnum_nil (path : string) (values : list string) (v : string) :
  checkEnum path values v = [] <-> v ∈ values.
Proof.
  unfold checkEnum. case_bool_decide; split; intros; easy.
Qed.

Lemma save_valid {A : Type} (validate : A -> list string)
    (coll : gmap nat A) (id : nat) (doc : A) :
  validate doc = [] -> save validate coll id doc = Ok (<[id := doc]> coll).
Proof. intros H. unfold save. now rewrite H. Qed.

Lemma save_invalid {A : Type} (validate : A -> list string)
    (coll : gmap nat A) (id : nat) (doc : A) :
  validate doc <> [] ->
  save validate coll id doc = Throw (ValidationError (validate doc)).
Proof. intros H. unfold save. destruct (validate doc); congruence. Qed.

Lemma save_Ok_inv {A : Type} (validate : A -> list string)
    (coll coll' : gmap nat A) (id : nat) (doc : A) :
  save validate coll id doc = Ok coll' ->
  validate doc = [] /\ coll' = <[id := doc]> coll.
Proof.
  unfold save. destruct (validate doc); intros H; inversion H; auto.
Qed.

Lemma set_products_id (db : Db) : set_products db (products db) = db.
Proof. now destruct db. Qed.

Lemma set_suppliers_id (db : Db) : set_suppliers db (suppliers db) = db.
Proof. now destruct db. Qed.

Lemma set_orders_id (db : Db) : set_orders db (orders db) = db.
Proof. now destruct db. Qed.

(** ** Stock *)

Lemma Product_validate_nil (p : Product.t) :
  Product.validate p = [] <->
  0 <= Product.price p /\ 0 <= Product.cost p /\
  0 <= Product.stockQuantity p /\ 0 <= Product.minStockLevel p.
Proof.
  unfold Product.validate.
  rewrite !app_nil, !checkMin_nil. tauto.
Qed.

Lemma Product_validate_set_stock (p : Product.t) (v : Z) :
  Product.validate p = [] -> 0 <= v ->
  Product.validate (Product.set_stockQuantity p v) = [].
Proof.
  rewrite !Product_validate_nil. simpl. tauto.
Qed.

Lemma set_stockQuantity_same (p : Product.t) :
  Product.set_stockQuantity p (Product.stockQuantity p) = p.
Proof. now destruct p. Qed.

Lemma updateStock_subtract_short (coll : gmap nat Product.t) (id : nat)
    (p : Product.t) (q : Z) :
  Product.stockQuantity p < q ->
  Product.updateStock coll id p q (Some "subtract")
  = Throw (Error "Insufficient stock").
Proof.
  intros Hlt. unfold Product.updateStock. simpl.
  destruct (Z.geb_spec (Product.stockQuantity p) q); [lia | reflexivity].
Qed.

Lemma updateStock_subtract_enough (coll : gmap nat Product.t) (id : nat)
    (p : Product.t) (q : Z) :
  q <= Product.stockQuantity p ->
  Product.updateStock coll id p q (Some "subtract")
  = save Product.validate coll id
      (Product.set_stockQuantity p (Product.stockQuantity p - q)).
Proof.
  intros Hle. unfold Product.updateStock. simpl.
  destruct (Z.geb_spec (Product.stockQuantity p) q); [reflexivity | lia].
Qed.

Lemma updateStock_add (coll : gmap nat Product.t) (id : nat)
    (p : Product.t) (q : Z) :
  Product.updateStock coll id p q (Some "add")
  = save Product.validate coll id
      (Product.set_stockQuantity p (Product.stockQuantity p + q)).
Proof. reflexivity. Qed.

Lemma updateStock_other (coll : gmap nat Product.t) (id : nat)
    (p : Product.t) (q : Z) (operation : string) :
  operation <> "add" -> operation <> "subtract" ->
  Product.updateStock coll id p q (Some operation)
  = save Product.validate coll id p.
Proof.
  intros Ha Hs. unfold Product.updateStock. simpl.
  destruct (decide (operation = "add")); [congruence |].
  destruct (decide (operation = "subtract")); [congruence | reflexivity].
Qed.

(** C3.  Reserving more than is on hand throws 'Insufficient stock': the
    stock route answers with that error, the order handler answers 400 for
    such a line, and both leave the database as it was.  Reserving at most
    what is on hand, on a product that passes its schema, stores the
    on-hand quantity lowered by exactly the requested quantity, in the
    stock route as in the loop of the order handler. *)
Theorem reserve_insufficient_or_decrements (db : Db) (id : nat)
    (p : Product.t) (q : Z) :
  products db !! id = Some p ->
  (Product.stockQuantity p < q ->
   Product.updateStock (products db) id p q (Some "subtract")
   = Throw (Error "Insufficient stock") /\
   Routes.putProductStock db id q (Some "subtract")
   = (db, JsonMessage 500 (ErrorMessage (Error "Insufficient stock"))) /\
   forall rest acc sub,
     Routes.reserveItems (products db) (Routes.mkReqItem id q :: rest) acc sub
     = (products db,
        Routes.Returned 400
          (InsufficientStockMsg (Product.name p) (Product.stockQuantity p))))
  /\
  (q <= Product.stockQuantity p -> Product.validate p = [] ->
   let p' := Product.set_stockQuantity p (Product.stockQuantity p - q) in
   Product.stockQuantity p' = Product.stockQuantity p - q /\
   Product.updateStock (products db) id p q (Some "subtract")
   = Ok (<[id := p']> (products db)) /\
   Routes.putProductStock db id q (Some "subtract")
   = (set_products db (<[id := p']> (products db)), Json 200 (Some p')) /\
   forall rest acc sub,
     Routes.reserveItems (products db) (Routes.mkReqItem id q :: rest) acc sub
     = Routes.reserveItems (<[id := p']> (products db)) rest
         (acc ++ [OrderItem.mk id q (Product.price p) (Product.price p * q)])
         (sub + Product.price p * q)).
Proof.
  intros Hp. split.
  - intros Hlt.
    pose proof (updateStock_subtract_short (products db) id p q Hlt) as E.
    split; [exact E |]. split.
    + unfold Routes.putProductStock. now rewrite Hp, E.
    + intros rest acc sub. simpl. rewrite Hp.
      destruct (Z.ltb_spec (Product.stockQuantity p) q); [reflexivity | lia].
  - intros Hle Hv p'.
    assert (E : Product.updateStock (products db) id p q (Some "subtract")
                = Ok (<[id := p']> (products db))).
    { rewrite updateStock_subtract_enough by exact Hle.
      apply save_valid, Product_validate_set_stock; [exact Hv | lia]. }
    split; [reflexivity |]. split; [exact E |]. split.
    + unfold Routes.putProductStock. rewrite Hp, E.
      now rewrite lookup_insert_eq.
    + intros rest acc sub. simpl. rewrite Hp.
      destruct (Z.ltb_spec (Product.stockQuantity p) q); [lia |].
      now rewrite E.
Qed.

Lemma reserve_insufficient_or_decrements_witness :
  Routes.putProductStock widgetDb 1 6 (Some "subtract")
  = (widgetDb, JsonMessage 500 (ErrorMessage (Error "Insufficient stock")))
  /\ Product.stockQuantity (Product.set_stockQuantity widget (5 - 2)) = 3.
Proof.
  destruct (reserve_insufficient_or_decrements widgetDb 1 widget 6)
    as [Hfail _]; [reflexivity |].
  destruct (reserve_insufficient_or_decrements widgetDb 1 widget 2)
    as [_ Hok]; [reflexivity |].
  split.
  - apply Hfail. simpl. lia.
  - apply Hok; [simpl; lia | reflexivity].
Defined.

(** Whatever [updateStock] stores has passed the product schema. *)
Lemma updateStock_Ok_inv (coll coll' : gmap nat Product.t) (id : nat)
    (p : Product.t) (q : Z) (operation : option string) :
  Product.updateStock coll id p q operation = Ok coll' ->
  exists p', Product.validate p' = [] /\ coll' = <[id := p']> coll.
Proof.
  unfold Product.updateStock. intros E.
  repeat (destruct (decide _) in E);
    try (destruct (_ >=? _) in E; [| discriminate]);
    apply save_Ok_inv in E; eauto.
Qed.

Lemma putProductStock_nonneg (db : Db) (id : nat) (q : Z)
    (operation : option string) :
  stockNonneg db ->
  stockNonneg (Routes.putProductStock db id q operation).1.
Proof.
  intros Hdb. unfold Routes.putProductStock.
  destruct (products db !! id) as [p |] eqn:Hp; [| exact Hdb].
  destruct (Product.updateStock (products db) id p q operation)
    as [ps | e] eqn:E; [| exact Hdb].
  apply updateStock_Ok_inv in E as (p' & Hv & ->).
  intros id' p'' Hlook. simpl in Hlook.
  destruct (decide (id = id')) as [<- | Hne].
  - rewrite lookup_insert_eq in Hlook. inversion Hlook; subst p''.
    apply Product_validate_nil in Hv. tauto.
  - rewrite lookup_insert_ne in Hlook by exact Hne. eauto.
Qed.

Lemma applyStockOp_nonneg (db : Db) (op : StockOp) :
  stockNonneg db -> stockNonneg (applyStockOp db op).
Proof.
  destruct op; simpl; apply putProductStock_nonneg.
Qed.

(** C4.  Starting from a database whose on-hand quantities are all
    non-negative, after each call of any finite sequence of reservations
    and releases with non-negative quantities every product's persisted
    on-hand quantity is non-negative. *)
Theorem stock_never_negative (db : Db) (ops : list StockOp) :
  stockNonneg db ->
  Forall (fun op => 0 <= opQuantity op) ops ->
  Forall stockNonneg (stockTrace db ops).
Proof.
  intros Hdb Hq. revert db Hdb.
  induction Hq as [| op rest _ _ IH]; intros db Hdb; simpl.
  - constructor.
  - pose proof (applyStockOp_nonneg db op Hdb) as Hstep.
    constructor; [exact Hstep | apply IH, Hstep].
Qed.

Lemma widgetDb_nonneg : stockNonneg widgetDb.
Proof.
  intros id p Hlook. unfold widgetDb in Hlook. simpl in Hlook.
  apply lookup_singleton_Some in Hlook as [_ <-]. simpl. lia.
Qed.

Lemma stock_never_negative_witness :
  Forall stockNonneg
    (stockTrace widgetDb [Reserve 1 3; Reserve 1 4; Release 1 2; Reserve 1 4]).
Proof.
  apply stock_never_negative.
  - exact widgetDb_nonneg.
  - repeat constructor; simpl; lia.
Defined.

(** ** Unknown operations *)

Lemma Supplier_validate_nil (s : Supplier.t) :
  Supplier.validate s = [] <->
  0 <= Supplier.creditLimit s /\ 1 <= Supplier.rating s <= 5.
Proof.
  unfold Supplier.validate.
  rewrite !app_nil, !checkMin_nil, checkMax_nil. tauto.
Qed.

Lemma updateBalance_other (coll : gmap nat Supplier.t) (id : nat)
    (s : Supplier.t) (amount : Z) (operation : string) :
  operation <> "add" -> operation <> "subtract" ->
  Supplier.updateBalance coll id s amount (Some operation)
  = save Supplier.validate coll id s.
Proof.
  intros Ha Hs. unfold Supplier.updateBalance. simpl.
  destruct (decide (operation = "add")); [congruence |].
  destruct (decide (operation = "subtract")); [congruence | reflexivity].
Qed.

(** C10.  With an operation string other than 'add' and 'subtract',
    [updateStock] on a stored product and [updateBalance] on a stored
    supplier (each passing its schema) resolve without an error and leave
    the collection, hence the stock quantity, the balance and every other
    field, as they were; the two routes answer 200 with the unchanged
    document. *)
Theorem unknown_operation_changes_nothing (db : Db) (id : nat)
    (operation : string) (amount : Z) :
  operation <> "add" -> operation <> "subtract" ->
  (forall p, products db !! id = Some p -> Product.validate p = [] ->
     Product.updateStock (products db) id p amount (Some operation)
     = Ok (products db) /\
     Routes.putProductStock db id amount (Some operation)
     = (db, Json 200 (Some p))) /\
  (forall s, suppliers db !! id = Some s -> Supplier.validate s = [] ->
     Supplier.updateBalance (suppliers db) id s amount (Some operation)
     = Ok (suppliers db) /\
     Routes.putSupplierBalance db id amount (Some operation)
     = (db, Json 200 (Some s))).
Proof.
  intros Ha Hs. split.
  - intros p Hp Hv.
    assert (E : Product.updateStock (products db) id p amount (Some operation)
                = Ok (products db)).
    { rewrite updateStock_other by assumption.
      rewrite save_valid by exact Hv. now rewrite insert_id. }
    split; [exact E |].
    unfold Routes.putProductStock. rewrite Hp, E, Hp.
    now rewrite set_products_id.
  - intros s Hs' Hv.
    assert (E : Supplier.updateBalance (suppliers db) id s amount
                  (Some operation) = Ok (suppliers db)).
    { rewrite updateBalance_other by assumption.
      rewrite save_valid by exact Hv. now rewrite insert_id. }
    split; [exact E |].
    unfold Routes.putSupplierBalance. rewrite Hs', E, Hs'.
    now rewrite set_suppliers_id.
Qed.

Lemma unknown_operation_changes_nothing_witness :
  Routes.putProductStock widgetDb 1 3 (Some "set")
  = (widgetDb, Json 200 (Some widget)) /\
  Routes.putSupplierBalance acmeDb 4 3 (Some "set")
  = (acmeDb, Json 200 (Some acme)).
Proof.
  split.
  - destruct (unknown_operation_changes_nothing widgetDb 1 "set" 3)
      as [Hp _]; [discriminate | discriminate |].
    apply Hp; reflexivity.
  - destruct (unknown_operation_changes_nothing acmeDb 4 "set" 3)
      as [_ Hs]; [discriminate | discriminate |].
    apply Hs; reflexivity.
Defined.

(** ** Order assembly *)






Lemma reserveItems_completed (items : list Routes.ReqItem) :
  forall (ps ps' : gmap nat Product.t) (acc orderItems : list OrderItem.t)
         (sub subtotal : Z),
  Routes.reserveItems ps items acc sub
  = (ps', Routes.Completed orderItems subtotal) ->
  (forall id, Product.price <$> ps' !! id = Product.price <$> ps !! id) /\
  exists new,
    orderItems = (acc ++ new)%list /\
    subtotal = sub + linesAmount new /\
    Forall2 (pricedFrom ps) items new.
Proof.
  induction items as [| line rest IH]; intros ps ps' acc ois sub st H;
    simpl in H.
  - inversion H; subst. split; [reflexivity |].
    exists []. rewrite app_nil_r. simpl. split; [reflexivity |].
    split; [lia | constructor].
  - destruct (ps !! Routes.product line) as [p |] eqn:Hp; [| discriminate].
    destruct (Z.ltb_spec (Product.stockQuantity p) (Routes.quantity line))
      as [Hlt | Hge]; [discriminate |].
    rewrite updateStock_subtract_enough in H by exact Hge.
    destruct (save Product.validate ps (Routes.product line) _)
      as [ps1 | e] eqn:Hsave; [| discriminate].
    apply save_Ok_inv in Hsave as [_ ->].
    apply IH in H as (Hprice & new & -> & -> & Hall).
    assert (Hstep : forall id,
      Product.price
        <$> <[Routes.product line :=
                Product.set_stockQuantity p
                  (Product.stockQuantity p - Routes.quantity line)]> ps !! id
      = Product.price <$> ps !! id).
    { intros id. destruct (decide (Routes.product line = id)) as [<- | Hne].
      - now rewrite lookup_insert_eq, Hp.
      - now rewrite lookup_insert_ne. }
    split; [intros id; now rewrite Hprice, Hstep |].
    eexists (_ :: new). rewrite <- app_assoc. simpl.
    split; [reflexivity |]. split; [simpl; lia |].
    constructor.
    + unfold pricedFrom. simpl. now rewrite Hp.
    + eapply Forall2_impl; [exact Hall |].
      intros l it (H1 & H2 & H3 & H4). unfold pricedFrom.
      now rewrite <- Hstep.
Qed.

(** Every draft is rejected: the validators run while the order number,
    which only the hook assigns, is still missing. *)
Lemma create_rejects (coll : gmap nat Order.t) (now : JsDate)
    (d : Order.Draft) :
  exists paths,
    Order.create coll now d = Throw (ValidationError paths) /\
    "orderNumber" ∈ paths.
Proof.
  unfold Order.create.
  match goal with
  | |- context [Order.validate ?doc] =>
      assert (Hin : "orderNumber" ∈ Order.validate doc)
  end.
  { unfold Order.validate. apply elem_of_app; left.
    unfold Order.checkRequired. simpl. apply list_elem_of_here. }
  destruct (Order.validate _) as [| path paths] eqn:Hv.
  - inversion Hin.
  - eexists. split; [reflexivity | exact Hin].
Qed.

Lemma postOrder_completed (db : Db) (user : nat) (body : Routes.OrderBody)
    (now : JsDate) (ps : gmap nat Product.t) (orderItems : list OrderItem.t)
    (subtotal : Z) :
  Routes.reserveItems (products db) (Routes.items body) [] 0
  = (ps, Routes.Completed orderItems subtotal) ->
  Routes.postOrder db user body now
  = (mkDb ps (suppliers db) (orders db), JsonMessage 500 ServerError).
Proof.
  intros Hloop. unfold Routes.postOrder. rewrite Hloop.
  match goal with
  | |- context [Order.create ?coll ?t ?d] =>
      destruct (create_rejects coll t d) as (paths & -> & _)
  end.
  reflexivity.
Qed.

Lemma postOrder_not_created (db : Db) (user : nat) (body : Routes.OrderBody)
    (now : JsDate) (o : option Order.t) :
  (Routes.postOrder db user body now).2 <> Json 201 o.
Proof.
  destruct (Routes.reserveItems (products db) (Routes.items body) [] 0)
    as [ps [ois sub | status m]] eqn:Hloop.
  - rewrite (postOrder_completed _ _ _ _ _ _ _ Hloop). discriminate.
  - unfold Routes.postOrder. rewrite Hloop. discriminate.
Qed.

(** C5 on the code.  The order handler computes the amounts of the claim:
    when its loop has run through the requested lines, the subtotal is the
    sum over the lines of unit price times quantity, at the prices stored
    when the request arrived.  But no order is ever created with them:
    [Order.create] rejects every draft with a validation error on
    [orderNumber], so no request is answered 201, and a request whose
    lines are all in stock is answered 500 with no order stored and the
    stock as the loop left it.  For two units at 10.00 and one at 5.00 with
    tax 2.00 and shipping 3.00 the loop computes the subtotal 25.00, the
    draft with the total 30.00 is rejected, and the stock of 5 and 4 is
    left at 3 and 3. *)
Theorem order_creation_is_always_rejected :
  (forall coll now d,
     exists paths,
       Order.create coll now d = Throw (ValidationError paths) /\
       "orderNumber" ∈ paths) /\
  (forall db user body now o,
     (Routes.postOrder db user body now).2 <> Json 201 o) /\
  (forall db user body now ps orderItems subtotal,
     Routes.reserveItems (products db) (Routes.items body) [] 0
     = (ps, Routes.Completed orderItems subtotal) ->
     subtotal = linesAmount orderItems /\
     Forall2 (pricedFrom (products db)) (Routes.items body) orderItems /\
     Routes.postOrder db user body now
     = (mkDb ps (suppliers db) (orders db), JsonMessage 500 ServerError)) /\
  Routes.reserveItems (products shopDb) (Routes.items twoLines) [] 0
  = (<[1%nat := Product.mk "Widget" 1000 600 3 1 7 true]>
       {[ 2%nat := Product.mk "Gadget" 500 300 3 1 7 true ]},
     Routes.Completed
       [OrderItem.mk 1 2 1000 2000; OrderItem.mk 2 1 500 500] 2500) /\
  Order.create ∅ may1
    (Order.mkDraft alice
       [OrderItem.mk 1 2 1000 2000; OrderItem.mk 2 1 500 500]
       2500 200 300 3000 (Some "cash") None 9)
  = Throw (ValidationError ["orderNumber"]) /\
  Routes.postOrder shopDb 9 twoLines may1
  = (mkDb (<[1%nat := Product.mk "Widget" 1000 600 3 1 7 true]>
             {[ 2%nat := Product.mk "Gadget" 500 300 3 1 7 true ]}) ∅ ∅,
     JsonMessage 500 ServerError).
Proof.
  split; [exact create_rejects |].
  split; [exact postOrder_not_created |].
  split.
  - intros db user body now ps ois sub Hloop.
    pose proof (postOrder_completed db user body now ps ois sub Hloop)
      as Hpost.
    apply reserveItems_completed in Hloop as (_ & new & -> & -> & Hall).
    simpl. split; [reflexivity |]. split; [exact Hall | exact Hpost].
  - split; [vm_compute; reflexivity |].
    split; vm_compute; reflexivity.
Qed.

Lemma order_creation_is_always_rejected_witness :
  2500 = linesAmount [OrderItem.mk 1 2 1000 2000; OrderItem.mk 2 1 500 500] /\
  Routes.postOrder shopDb 9 twoLines may1
  = (mkDb (<[1%nat := Product.mk "Widget" 1000 600 3 1 7 true]>
             {[ 2%nat := Product.mk "Gadget" 500 300 3 1 7 true ]}) ∅ ∅,
     JsonMessage 500 ServerError).
Proof.
  destruct order_creation_is_always_rejected as (_ & _ & Hloop & _).
  destruct (Hloop shopDb 9%nat twoLines may1
              (<[1%nat := Product.mk "Widget" 1000 600 3 1 7 true]>
                 {[ 2%nat := Product.mk "Gadget" 500 300 3 1 7 true ]})
              [OrderItem.mk 1 2 1000 2000; OrderItem.mk 2 1 500 500] 2500)
    as (Hs & _ & Hpost).
  - vm_compute. reflexivity.
  - split; [exact Hs | exact Hpost].
Defined.

(** ** Status transitions *)

Lemma putOrderStatus_products (db : Db) (id : nat)
    (status : Order.StatusValue) (now : JsDate) :
  products (Routes.putOrderStatus db id status now).1 = products db.
Proof.
  unfold Routes.putOrderStatus.
  destruct (Order.findById (orders db) id) as [o |]; [| reflexivity].
  destruct (Order.updateStatus _ _ _ _ _); reflexivity.
Qed.

(** C2 on the code.  A status transition never touches a product.  With a
    pending order for two widgets and one gadget stored and its quantities
    reserved (3 and 3 are on hand), cancelling the order is answered with
    the cancelled order and leaves the stock at 3 and 3.  The delete route
    does release them for the same stored order (5 and 4 are then on hand),
    but no longer once the order is cancelled: deleting the cancelled order
    leaves the products as they were. *)
Theorem cancel_leaves_stock_reserved :
  (forall db id status now,
     products (Routes.putOrderStatus db id status now).1 = products db) /\
  orders orderedDb !! placedId = Some placedOrder /\
  Order.status placedOrder = Order.Str "pending" /\
  Order.items placedOrder
  = [OrderItem.mk 1 2 1000 2000; OrderItem.mk 2 1 500 500] /\
  Product.stockQuantity <$> products orderedDb !! 1%nat = Some 3 /\
  Product.stockQuantity <$> products orderedDb !! 2%nat = Some 3 /\
  let cancelled :=
    Routes.putOrderStatus orderedDb placedId (Order.Str "cancelled") may2 in
  (exists o, cancelled.2 = Json 200 (Some o)
             /\ Order.status o = Order.Str "cancelled") /\
  Product.stockQuantity <$> products cancelled.1 !! 1%nat = Some 3 /\
  Product.stockQuantity <$> products cancelled.1 !! 2%nat = Some 3 /\
  Product.stockQuantity
    <$> products (Routes.deleteOrder orderedDb placedId).1 !! 1%nat
  = Some 5 /\
  Product.stockQuantity
    <$> products (Routes.deleteOrder orderedDb placedId).1 !! 2%nat
  = Some 4 /\
  Routes.deleteOrder cancelled.1 placedId
  = (mkDb (products orderedDb) ∅ ∅, JsonMessage 200 OrderRemoved).
Proof.
  split; [exact putOrderStatus_products |].
  vm_compute. repeat split. eexists. split; reflexivity.
Qed.

Lemma Order_validate_nil (o : Order.t) :
  Order.validate o = [] ->
  Forall (fun item => OrderItem.validate item = []) (Order.items o) /\
  forall s, Order.status o = Order.Str s -> s ∈ Order.statusEnum.
Proof.
  unfold Order.validate. rewrite !app_nil.
  intros (_ & _ & _ & _ & Hitems & _ & _ & _ & _ & Hstatus & _).
  split.
  - induction (Order.items o) as [| item rest IH]; [constructor |].
    simpl in Hitems. apply app_nil in Hitems as [Hitem Hrest].
    constructor; auto.
  - intros s Hs. rewrite Hs in Hstatus. now apply checkEnum_nil in Hstatus.
Qed.

Lemma Order_validate_set_status (o : Order.t) (v : Order.StatusValue) :
  Order.validate o = [] ->
  (forall s, v = Order.Str s -> s ∈ Order.statusEnum) ->
  Order.validate (Order.set_status o v) = [].
Proof.
  unfold Order.validate. simpl. rewrite !app_nil.
  intros (H1 & H2 & H3 & H4 & H5 & H6 & H7 & H8 & H9 & _ & H11) Hv.
  repeat (split; [assumption |]).
  split; [| assumption].
  destruct v as [| | s]; [reflexivity | reflexivity |].
  apply checkEnum_nil. now apply Hv.
Qed.

Lemma Order_validate_bad_status (o : Order.t) (s : string) :
  s ∉ Order.statusEnum ->
  "status" ∈ Order.validate (Order.set_status o (Order.Str s)).
Proof.
  intros Hs. unfold Order.validate. simpl.
  do 9 (apply elem_of_app; right). apply elem_of_app; left.
  unfold checkEnum. case_bool_decide; [contradiction | constructor].
Qed.

Lemma updateStatus_unfold (coll : gmap nat Order.t) (id : nat)
    (o : Order.t) (v : Order.StatusValue) (now : JsDate) :
  exists o',
    Order.updateStatus coll id o v now = save Order.validate coll id o' /\
    Order.validate o' = Order.validate (Order.set_status o v).
Proof.
  unfold Order.updateStatus.
  destruct (decide (v = Order.Str "shipped")); [eauto |].
  destruct (decide (v = Order.Str "delivered")); eauto.
Qed.

(** ** Documents as the handlers load them *)

Lemma findById_Some (coll : gmap nat Order.t) (id : nat) (o : Order.t) :
  Order.findById coll id = Some o ->
  exists stored, coll !! id = Some stored /\ o = Order.hydrate stored.
Proof.
  unfold Order.findById. destruct (coll !! id) as [stored |]; [| discriminate].
  intros H. inversion H. eauto.
Qed.

Lemma findById_stored (coll : gmap nat Order.t) (id : nat) (o : Order.t) :
  coll !! id = Some o -> Order.findById coll id = Some (Order.hydrate o).
Proof. unfold Order.findById. now intros ->. Qed.

Lemma hydrate_set (o : Order.t) :
  Order.status o <> Order.Undefined -> Order.hydrate o = o.
Proof. unfold Order.hydrate. now destruct (Order.status o). Qed.

Lemma findById_insert (coll : gmap nat Order.t) (id : nat) (o : Order.t) :
  Order.findById (<[id := o]> coll) id = Some (Order.hydrate o).
Proof. unfold Order.findById. now rewrite lookup_insert_eq. Qed.

Lemma set_status_hydrate (o : Order.t) (v : Order.StatusValue) :
  Order.set_status (Order.hydrate o) v = Order.set_status o v.
Proof. unfold Order.hydrate. now destruct (Order.status o). Qed.

(** C9, as the code has it.  A requested status that is a string outside
    the declared values makes [updateStatus] reject with a validation
    error on the path [status], whatever the order, and the route answers
    with an error and leaves the database, hence the persisted status, as
    it was.  The other values outside the declared set that a request can
    carry are accepted: for a stored order that passes its schema, [null]
    is stored as the order's status and an absent status unsets it, both
    with a 200 answer; the answer shows the order as it is loaded again,
    which is as pending once the status is unset.  The transition to
    [shipped] stores that status with the shipped timestamp set to now, and
    the transition to [delivered] does so with the delivered timestamp. *)
Theorem status_strings_are_checked (db : Db) (id : nat) (o : Order.t)
    (now : JsDate) :
  orders db !! id = Some o ->
  (forall s, s ∉ Order.statusEnum ->
     (forall this,
        exists paths,
          Order.updateStatus (orders db) id this (Order.Str s) now
          = Throw (ValidationError paths) /\ "status" ∈ paths) /\
     Routes.putOrderStatus db id (Order.Str s) now
     = (db, JsonMessage 500 ServerError))
  /\
  (Order.validate o = [] ->
   let null := Order.set_status o Order.Null in
   let unset := Order.set_status o Order.Undefined in
   let shipped := Order.set_shippedAt (Order.set_status o (Order.Str "shipped"))
                    (Some now) in
   let delivered :=
     Order.set_deliveredAt (Order.set_status o (Order.Str "delivered"))
       (Some now) in
   Routes.putOrderStatus db id Order.Null now
   = (set_orders db (<[id := null]> (orders db)), Json 200 (Some null))
   /\ Order.status null = Order.Null /\
   Routes.putOrderStatus db id Order.Undefined now
   = (set_orders db (<[id := unset]> (orders db)),
      Json 200 (Some (Order.set_status o (Order.Str "pending"))))
   /\ Order.status unset = Order.Undefined /\
   Routes.putOrderStatus db id (Order.Str "shipped") now
   = (set_orders db (<[id := shipped]> (orders db)), Json 200 (Some shipped))
   /\ Order.status shipped = Order.Str "shipped"
   /\ Order.shippedAt shipped = Some now /\
   Routes.putOrderStatus db id (Order.Str "delivered") now
   = (set_orders db (<[id := delivered]> (orders db)),
      Json 200 (Some delivered))
   /\ Order.status delivered = Order.Str "delivered"
   /\ Order.deliveredAt delivered = Some now).
Proof.
  intros Ho. apply findById_stored in Ho. split.
  - intros s Hs.
    assert (Hthrow : forall this,
      exists paths,
        Order.updateStatus (orders db) id this (Order.Str s) now
        = Throw (ValidationError paths) /\ "status" ∈ paths).
    { intros this.
      destruct (updateStatus_unfold (orders db) id this (Order.Str s) now)
        as (o' & E & Hv).
      pose proof (Order_validate_bad_status this s Hs) as Hin.
      rewrite <- Hv in Hin.
      assert (Hne : Order.validate o' <> []).
      { intros Hnil. rewrite Hnil in Hin. inversion Hin. }
      rewrite (save_invalid _ _ _ _ Hne) in E. eauto. }
    split; [exact Hthrow |].
    unfold Routes.putOrderStatus. rewrite Ho.
    destruct (Hthrow (Order.hydrate o)) as (paths & -> & _). reflexivity.
  - intros Hv null unset shipped delivered.
    assert (Hn : Order.validate null = []).
    { apply (Order_validate_set_status o _ Hv). intros s E. discriminate. }
    assert (Hu : Order.validate unset = []).
    { apply (Order_validate_set_status o _ Hv). intros s E. discriminate. }
    assert (Hs : Order.validate shipped = []).
    { apply (Order_validate_set_status o (Order.Str "shipped") Hv).
      intros s E. inversion E; subst s.
      unfold Order.statusEnum. set_solver. }
    assert (Hd : Order.validate delivered = []).
    { apply (Order_validate_set_status o (Order.Str "delivered") Hv).
      intros s E. inversion E; subst s.
      unfold Order.statusEnum. set_solver. }
    unfold Routes.putOrderStatus, Order.updateStatus. rewrite Ho. simpl.
    rewrite !set_status_hydrate.
    fold null. fold unset. fold shipped. fold delivered.
    rewrite (save_valid _ _ _ _ Hn), (save_valid _ _ _ _ Hu),
      (save_valid _ _ _ _ Hs), (save_valid _ _ _ _ Hd).
    rewrite !findById_insert. repeat split.
Qed.

Lemma orderedDb_placedOrder : orders orderedDb !! placedId = Some placedOrder.
Proof. vm_compute. reflexivity. Qed.

Lemma orderedDb_findById :
  Order.findById (orders orderedDb) placedId = Some placedOrder.
Proof. vm_compute. reflexivity. Qed.

Lemma status_strings_are_checked_witness :
  Routes.putOrderStatus orderedDb placedId (Order.Str "bogus") may2
  = (orderedDb, JsonMessage 500 ServerError) /\
  Routes.putOrderStatus orderedDb placedId Order.Null may2
  = (set_orders orderedDb
       {[ placedId :=
            Order.mk "ORD-20240501-001" alice
              [OrderItem.mk 1 2 1000 2000; OrderItem.mk 2 1 500 500]
              2500 200 300 3000 Order.Null "pending" (Some "cash") None 9
              None None may1 ]},
     Json 200
       (Some (Order.mk "ORD-20240501-001" alice
                [OrderItem.mk 1 2 1000 2000; OrderItem.mk 2 1 500 500]
                2500 200 300 3000 Order.Null "pending" (Some "cash") None 9
                None None may1))) /\
  Routes.putOrderStatus orderedDb placedId (Order.Str "shipped") may2
  = (shippedDb, Json 200 (orders shippedDb !! placedId)).
Proof.
  destruct (status_strings_are_checked orderedDb placedId placedOrder may2
              orderedDb_placedOrder) as [Hbad Hgood].
  split.
  - apply Hbad. unfold Order.statusEnum.
    rewrite !not_elem_of_cons. repeat (split; [discriminate |]).
    apply not_elem_of_nil.
  - destruct Hgood as (Hnull & _ & _ & _ & Hshipped & _);
      [vm_compute; reflexivity |].
    split; [exact Hnull | exact Hshipped].
Defined.

(** C9, as stated, fails: [null] is a value outside the declared set, and
    on a stored pending order the status route answers it with 200 and
    stores it as the order's status. *)
Lemma null_status_is_stored :
  (forall s, s ∈ Order.statusEnum -> Order.Null <> Order.Str s) /\
  Order.status <$> orders orderedDb !! placedId = Some (Order.Str "pending") /\
  (exists o,
     (Routes.putOrderStatus orderedDb placedId Order.Null may2).2
     = Json 200 (Some o)) /\
  Order.status
    <$> orders (Routes.putOrderStatus orderedDb placedId Order.Null may2).1
        !! placedId
  = Some Order.Null /\
  Order.status
    <$> orders (Routes.putOrderStatus orderedDb placedId Order.Null may2).1
        !! placedId
  <> Order.status <$> orders orderedDb !! placedId.
Proof.
  split; [discriminate |].
  vm_compute. repeat split; [eexists; reflexivity | discriminate].
Qed.

(** ** Editing an order *)

(** C7.  The edit route stores an edited order only for an order whose
    status is [pending]; for a stored order with any other status it
    answers 400 'Cannot update order that is not in pending status' and
    leaves the database as it was.  The status is that of the document the
    handler loads. *)
Theorem edit_only_while_pending (db : Db) (id : nat)
    (body : Routes.OrderPatch) :
  (forall db' o', Routes.putOrder db id body = (db', Json 200 o') ->
     exists o, Order.findById (orders db) id = Some o
               /\ Order.status o = Order.Str "pending") /\
  (forall o, Order.findById (orders db) id = Some o ->
     Order.status o <> Order.Str "pending" ->
     Routes.putOrder db id body = (db, JsonMessage 400 NotPending)).
Proof.
  unfold Routes.putOrder. split.
  - intros db' o' H.
    destruct (Order.findById (orders db) id) as [o |]; [| discriminate].
    exists o. split; [reflexivity |].
    case_bool_decide; [assumption | discriminate].
  - intros o Ho Hs. rewrite Ho.
    case_bool_decide; [contradiction | reflexivity].
Qed.

Lemma shippedDb_findById :
  Order.findById (orders shippedDb) placedId
  = Some (Order.mk "ORD-20240501-001" alice
            [OrderItem.mk 1 2 1000 2000; OrderItem.mk 2 1 500 500]
            2500 200 300 3000 (Order.Str "shipped") "pending" (Some "cash")
            None 9 (Some may2) None may1).
Proof. vm_compute. reflexivity. Qed.

Lemma edit_only_while_pending_witness :
  Routes.putOrder shippedDb placedId retag
  = (shippedDb, JsonMessage 400 NotPending) /\
  exists o, Order.findById (orders orderedDb) placedId = Some o
            /\ Order.status o = Order.Str "pending".
Proof.
  split.
  - destruct (edit_only_while_pending shippedDb placedId retag) as [_ Hno].
    eapply Hno; [exact shippedDb_findById | discriminate].
  - destruct (edit_only_while_pending orderedDb placedId retag) as [Hyes _].
    eapply Hyes. vm_compute. reflexivity.
Defined.

(** ** Deleting an order *)

Lemma restoreItems_valid (items : list OrderItem.t) :
  forall ps : gmap nat Product.t,
  (forall id p, ps !! id = Some p -> Product.validate p = []) ->
  Forall (fun item => OrderItem.validate item = []) items ->
  exists ps',
    Routes.restoreItems ps items = (Ok ps', ps') /\
    (forall id, ps !! id = None -> ps' !! id = None) /\
    (forall id p, ps !! id = Some p ->
       ps' !! id
       = Some (Product.mk (Product.name p) (Product.price p)
                 (Product.cost p)
                 (releasedStock id items (Product.stockQuantity p))
                 (Product.minStockLevel p) (Product.supplier p)
                 (Product.isActive p))).
Proof.
  induction items as [| item rest IH]; intros ps Hps Hitems; simpl.
  - exists ps. split; [reflexivity |]. split; [auto |].
    intros id p Hp. rewrite Hp. now destruct p.
  - inversion Hitems as [| ? ? Hitem Hrest]; subst.
    unfold OrderItem.validate in Hitem.
    apply app_nil in Hitem as [Hq _]. apply checkMin_nil in Hq.
    destruct (ps !! OrderItem.product item) as [p |] eqn:Hp.
    + pose proof (Hps _ _ Hp) as Hv.
      pose proof Hv as Hv'. apply Product_validate_nil in Hv'.
      rewrite updateStock_add, save_valid
        by (apply Product_validate_set_stock; [exact Hv | lia]).
      destruct (IH (<[OrderItem.product item :=
                       Product.set_stockQuantity p
                         (Product.stockQuantity p + OrderItem.quantity item)]>
                      ps)) as (ps' & E & Hnone & Hsome).
      * intros id p0 Hp0.
        destruct (decide (OrderItem.product item = id)) as [<- | Hne].
        -- rewrite lookup_insert_eq in Hp0. inversion Hp0; subst p0.
           apply Product_validate_set_stock; [exact Hv | lia].
        -- rewrite lookup_insert_ne in Hp0 by exact Hne. eauto.
      * exact Hrest.
      * exists ps'. split; [exact E |]. split.
        -- intros id Hid. apply Hnone.
           rewrite lookup_insert_ne; [exact Hid | congruence].
        -- intros id p0 Hp0.
           destruct (decide (OrderItem.product item = id)) as [<- | Hne].
           ++ rewrite (Hsome _ _ (lookup_insert_eq _ _ _)).
              rewrite Hp in Hp0. inversion Hp0; subst p0. reflexivity.
           ++ rewrite (Hsome id p0); [reflexivity |].
              now rewrite lookup_insert_ne.
    + destruct (IH ps Hps Hrest) as (ps' & E & Hnone & Hsome).
      exists ps'. split; [exact E |]. split; [exact Hnone |].
      intros id p0 Hp0.
      destruct (decide (OrderItem.product item = id)) as [<- | Hne];
        [congruence |].
      exact (Hsome id p0 Hp0).
Qed.

(** C8.  Deleting an order that the handler loads with the status
    [pending] or [confirmed] (the order and the stored products passing
    their schemas) adds, line by line, each line's quantity to the on-hand
    quantity of the line's product, changes no other field and no other
    product, and removes the order; deleting an order in any other status
    removes the order and leaves every product as it was. *)
Theorem delete_releases_reserved_stock (db : Db) (id : nat) (o : Order.t) :
  Order.findById (orders db) id = Some o ->
  (productsValid db -> Order.validate o = [] ->
   Order.status o = Order.Str "pending"
   \/ Order.status o = Order.Str "confirmed" ->
   exists ps',
     Routes.deleteOrder db id
     = (mkDb ps' (suppliers db) (delete id (orders db)),
        JsonMessage 200 OrderRemoved) /\
     (forall pid, products db !! pid = None -> ps' !! pid = None) /\
     (forall pid p, products db !! pid = Some p ->
        ps' !! pid
        = Some (Product.mk (Product.name p) (Product.price p)
                  (Product.cost p)
                  (releasedStock pid (Order.items o)
                     (Product.stockQuantity p))
                  (Product.minStockLevel p) (Product.supplier p)
                  (Product.isActive p)))) /\
  (Order.status o <> Order.Str "pending" ->
   Order.status o <> Order.Str "confirmed" ->
   Routes.deleteOrder db id
   = (mkDb (products db) (suppliers db) (delete id (orders db)),
      JsonMessage 200 OrderRemoved)).
Proof.
  intros Ho. unfold Routes.deleteOrder. rewrite Ho. split.
  - intros Hps Hv Hstatus.
    apply Order_validate_nil in Hv as [Hitems _].
    destruct (restoreItems_valid (Order.items o) (products db) Hps Hitems)
      as (ps' & E & Hnone & Hsome).
    exists ps'. split; [| auto].
    assert (Hb : bool_decide (Order.status o = Order.Str "pending")
                 || bool_decide (Order.status o = Order.Str "confirmed")
                 = true).
    { destruct Hstatus as [-> | ->]; reflexivity. }
    now rewrite Hb, E.
  - intros Hp Hc.
    rewrite (bool_decide_eq_false_2 _ Hp), (bool_decide_eq_false_2 _ Hc).
    reflexivity.
Qed.

Lemma productsValid_orderedDb : productsValid orderedDb.
Proof.
  apply (bool_decide_unpack
           (map_Forall (fun _ p => Product.validate p = [])
              (products orderedDb))).
  vm_compute. exact I.
Qed.

Lemma delete_releases_reserved_stock_witness :
  (exists ps',
     Routes.deleteOrder orderedDb placedId
     = (mkDb ps' ∅ (delete placedId (orders orderedDb)),
        JsonMessage 200 OrderRemoved) /\
     ps' !! 1%nat = Some (Product.mk "Widget" 1000 600 5 1 7 true) /\
     ps' !! 2%nat = Some (Product.mk "Gadget" 500 300 4 1 7 true)) /\
  Routes.deleteOrder orderedDb placedId
  = (shopDb, JsonMessage 200 OrderRemoved) /\
  Routes.deleteOrder shippedDb placedId
  = (mkDb (products shippedDb) ∅ (delete placedId (orders shippedDb)),
     JsonMessage 200 OrderRemoved).
Proof.
  split; [| split; [vm_compute; reflexivity |]].
  - destruct (delete_releases_reserved_stock orderedDb placedId placedOrder
                orderedDb_findById) as [Hrelease _].
    destruct Hrelease as (ps' & E & _ & Hsome);
      [exact productsValid_orderedDb | vm_compute; reflexivity
       | left; reflexivity |].
    exists ps'. split; [exact E |]. split.
    + exact (Hsome 1%nat (Product.mk "Widget" 1000 600 3 1 7 true)
               eq_refl).
    + exact (Hsome 2%nat (Product.mk "Gadget" 500 300 3 1 7 true)
               eq_refl).
  - destruct (delete_releases_reserved_stock shippedDb placedId _
                shippedDb_findById) as [_ Hkeep].
    apply Hkeep; discriminate.
Defined.

(** ** Order numbers *)


Lemma below_checked (P : nat -> bool) (lo len n : nat) :
  forallb P (seq lo len) = true -> (lo <= n < lo + len)%nat -> P n = true.
Proof.
  intros Hall Hn. rewrite List.forallb_forall in Hall.
  apply Hall, List.in_seq. exact Hn.
Qed.

Lemma padStart2_fixedWidth (n : nat) :
  (n < 100)%nat -> padStart (String_ n) 2 "0" = fixedWidth 2 n.
Proof.
  intros Hn. apply String.eqb_eq.
  apply (below_checked
           (fun n => String.eqb (padStart (String_ n) 2 "0") (fixedWidth 2 n))
           0 100); [vm_compute; reflexivity | lia].
Qed.

Lemma padStart3_fixedWidth (n : nat) :
  (n < 1000)%nat -> padStart (String_ n) 3 "0" = fixedWidth 3 n.
Proof.
  intros Hn. apply String.eqb_eq.
  apply (below_checked
           (fun n => String.eqb (padStart (String_ n) 3 "0") (fixedWidth 3 n))
           0 1000); [vm_compute; reflexivity | lia].
Qed.

Lemma String_fixedWidth4 (n : nat) :
  (1000 <= n < 100 * 100)%nat -> String_ n = fixedWidth 4 n.
Proof.
  intros Hn. apply String.eqb_eq.
  apply (below_checked
           (fun n => String.eqb (String_ n) (fixedWidth 4 n))
           1000 (90 * 100)); [vm_compute; reflexivity | lia].
Qed.

Lemma generateOrderNumber_format (coll : gmap nat Order.t) (date : JsDate) :
  calendarDate date ->
  (Order.countDocuments (Order.createdOn date) coll + 1 < 1000)%nat ->
  Order.generateOrderNumber coll date
  = formatOrderNumber (getFullYear date) (getMonth date + 1) (getDate date)
      (Order.countDocuments (Order.createdOn date) coll + 1).
Proof.
  intros (Hy & Hm & Hd) Hn.
  unfold Order.generateOrderNumber, formatOrderNumber.
  rewrite String_fixedWidth4 by exact Hy.
  rewrite !padStart2_fixedWidth by lia.
  now rewrite padStart3_fixedWidth by exact Hn.
Qed.

Lemma countDocuments_insert (P : Order.t -> bool) (coll : gmap nat Order.t)
    (id : nat) (o : Order.t) :
  coll !! id = None ->
  Order.countDocuments P (<[id := o]> coll)
  = ((if P o then 1 else 0) + Order.countDocuments P coll)%nat.
Proof.
  intros Hid. unfold Order.countDocuments.
  destruct (P o) eqn:HP.
  - rewrite map_filter_insert_True by exact HP.
    rewrite map_size_insert_None; [reflexivity |].
    apply map_lookup_filter_None. now left.
  - rewrite map_filter_insert_False by (simpl; congruence).
    now rewrite delete_id.
Qed.














(** ** Stored documents keep passing their schema *)

Section Saved.

Context {A : Type} (validate : A -> list string).

Lemma insert_allValid (coll : gmap nat A) (id : nat) (doc : A) :
  allValid validate coll -> validate doc = [] ->
  allValid validate (<[id := doc]> coll).
Proof.
  intros Hcoll Hdoc id' x Hx.
  destruct (decide (id = id')) as [<- | Hne].
  - rewrite lookup_insert_eq in Hx. now inversion Hx; subst.
  - rewrite lookup_insert_ne in Hx by exact Hne. eauto.
Qed.

Lemma save_allValid (coll coll' : gmap nat A) (id : nat) (doc : A) :
  allValid validate coll -> save validate coll id doc = Ok coll' ->
  allValid validate coll'.
Proof.
  intros Hcoll Hsave. apply save_Ok_inv in Hsave as [Hdoc ->].
  now apply insert_allValid.
Qed.

Lemma delete_allValid (coll : gmap nat A) (id : nat) :
  allValid validate coll -> allValid validate (delete id coll).
Proof.
  intros Hcoll id' x Hx. apply lookup_delete_Some in Hx as [_ Hx]. eauto.
Qed.

End Saved.

Lemma updateStock_allValid (coll coll' : gmap nat Product.t) (id : nat)
    (p : Product.t) (q : Z) (operation : option string) :
  (forall i x, coll !! i = Some x -> Product.validate x = []) ->
  Product.updateStock coll id p q operation = Ok coll' ->
  forall i x, coll' !! i = Some x -> Product.validate x = [].
Proof.
  intros Hcoll E. apply updateStock_Ok_inv in E as (p' & Hv & ->).
  now apply insert_allValid.
Qed.

Lemma reserveItems_allValid (items : list Routes.ReqItem) :
  forall (ps : gmap nat Product.t) (acc : list OrderItem.t) (sub : Z),
  (forall i x, ps !! i = Some x -> Product.validate x = []) ->
  forall i x, (Routes.reserveItems ps items acc sub).1 !! i = Some x ->
              Product.validate x = [].
Proof.
  induction items as [| line rest IH]; intros ps acc sub Hps; simpl;
    [exact Hps |].
  destruct (ps !! Routes.product line) as [p |]; [| exact Hps].
  destruct (_ <? _); [exact Hps |].
  destruct (Product.updateStock _ _ _ _ _) as [ps1 | e] eqn:E; [| exact Hps].
  apply IH. exact (updateStock_allValid _ _ _ _ _ _ Hps E).
Qed.

Lemma restoreItems_allValid (items : list OrderItem.t) :
  forall ps : gmap nat Product.t,
  (forall i x, ps !! i = Some x -> Product.validate x = []) ->
  forall i x, (Routes.restoreItems ps items).2 !! i = Some x ->
              Product.validate x = [].
Proof.
  induction items as [| item rest IH]; intros ps Hps; simpl; [exact Hps |].
  destruct (ps !! OrderItem.product item) as [p |]; [| now apply IH].
  destruct (Product.updateStock _ _ _ _ _) as [ps1 | e] eqn:E; [| exact Hps].
  apply IH. exact (updateStock_allValid _ _ _ _ _ _ Hps E).
Qed.

Lemma restoreItems_Ok (items : list OrderItem.t) :
  forall ps ps' rest : gmap nat Product.t,
  Routes.restoreItems ps items = (Ok ps', rest) -> ps' = rest.
Proof.
  induction items as [| item items IH]; intros ps ps' rest H; simpl in H.
  - now inversion H.
  - destruct (ps !! OrderItem.product item) as [p |]; [| eauto].
    destruct (Product.updateStock _ _ _ _ _) as [ps1 | e]; [eauto |].
    discriminate.
Qed.

(** Every handler maps a database whose products and orders pass their
    schemas to such a database: the validity assumed of stored documents
    in the theorems above is an invariant of the routes. *)
Lemma handlers_keep_documents_valid (db : Db) :
  productsValid db -> ordersValid db ->
  (forall id q operation,
     let db' := (Routes.putProductStock db id q operation).1 in
     productsValid db' /\ ordersValid db') /\
  (forall user body now,
     let db' := (Routes.postOrder db user body now).1 in
     productsValid db' /\ ordersValid db') /\
  (forall id status now,
     let db' := (Routes.putOrderStatus db id status now).1 in
     productsValid db' /\ ordersValid db') /\
  (forall id body,
     let db' := (Routes.putOrder db id body).1 in
     productsValid db' /\ ordersValid db') /\
  (forall id,
     let db' := (Routes.deleteOrder db id).1 in
     productsValid db' /\ ordersValid db').
Proof.
  intros Hps Hos. repeat split.
  - unfold Routes.putProductStock.
    destruct (products db !! id) as [p |]; [| exact Hps].
    destruct (Product.updateStock _ _ _ _ _) as [ps | e] eqn:E;
      [| exact Hps].
    exact (updateStock_allValid _ _ _ _ _ _ Hps E).
  - unfold Routes.putProductStock.
    destruct (products db !! id) as [p |]; [| exact Hos].
    destruct (Product.updateStock _ _ _ _ _); exact Hos.
  - pose proof (reserveItems_allValid (Routes.items body) (products db) [] 0
                  Hps) as Hloop.
    unfold Routes.postOrder.
    destruct (Routes.reserveItems _ _ _ _) as [ps [ois sub | status m]];
      [| exact Hloop].
    destruct (Order.create _ _ _) as [[os id] | e]; exact Hloop.
  - unfold Routes.postOrder.
    destruct (Routes.reserveItems _ _ _ _) as [ps [ois sub | status m]];
      [| exact Hos].
    destruct (Order.create _ _ _) as [[os id] | e] eqn:E; [| exact Hos].
    match type of E with
    | Order.create ?coll ?t ?d = _ =>
        destruct (create_rejects coll t d) as (paths & E' & _)
    end.
    rewrite E' in E. discriminate.
  - unfold productsValid. now rewrite putOrderStatus_products.
  - unfold Routes.putOrderStatus.
    destruct (Order.findById (orders db) id) as [o |]; [| exact Hos].
    destruct (Order.updateStatus _ _ _ _ _) as [os | e] eqn:E; [| exact Hos].
    destruct (updateStatus_unfold (orders db) id o status now)
      as (o' & E' & _).
    rewrite E' in E. exact (save_allValid Order.validate _ _ _ _ Hos E).
  - unfold Routes.putOrder.
    destruct (Order.findById (orders db) id) as [o |]; [| exact Hps].
    destruct (negb _); [exact Hps |].
    destruct (save _ _ _ _); exact Hps.
  - unfold Routes.putOrder.
    destruct (Order.findById (orders db) id) as [o |]; [| exact Hos].
    destruct (negb _); [exact Hos |].
    destruct (save _ _ _ _) as [os | e] eqn:E; [| exact Hos].
    exact (save_allValid Order.validate _ _ _ _ Hos E).
  - unfold Routes.deleteOrder.
    destruct (Order.findById (orders db) id) as [o |]; [| exact Hps].
    destruct (_ || _).
    + pose proof (restoreItems_allValid (Order.items o) (products db) Hps)
        as Hloop.
      destruct (Routes.restoreItems _ _) as [[ps | e] rest] eqn:E;
        [| exact Hloop].
      apply restoreItems_Ok in E as ->. exact Hloop.
    + exact Hps.
  - unfold Routes.deleteOrder.
    destruct (Order.findById (orders db) id) as [o |]; [| exact Hos].
    destruct (if _ || _ then _ else _) as [[ps | e] rest]; [| exact Hos].
    exact (delete_allValid Order.validate _ _ Hos).
Qed.

(** * Further properties of the modelled code *)

(** ** Placing an order *)


Lemma reserveItems_completed_reserved (items : list Routes.ReqItem) :
  forall (ps ps' : gmap nat Product.t) (acc orderItems : list OrderItem.t)
         (sub subtotal : Z),
  Routes.reserveItems ps items acc sub
  = (ps', Routes.Completed orderItems subtotal) ->
  (forall id, ps !! id = None -> ps' !! id = None) /\
  (forall id p, ps !! id = Some p ->
     ps' !! id
     = Some (Product.mk (Product.name p) (Product.price p) (Product.cost p)
               (reservedStock id items (Product.stockQuantity p))
               (Product.minStockLevel p) (Product.supplier p)
               (Product.isActive p))).
Proof.
  induction items as [| line rest IH]; intros ps ps' acc ois sub st H;
    simpl in H.
  - inversion H; subst. split; [auto |]. intros id p Hp. simpl.
    rewrite Hp. now destruct p.
  - destruct (ps !! Routes.product line) as [p |] eqn:Hp; [| discriminate].
    destruct (Z.ltb_spec (Product.stockQuantity p) (Routes.quantity line))
      as [Hlt | Hge]; [discriminate |].
    rewrite updateStock_subtract_enough in H by exact Hge.
    destruct (save Product.validate ps (Routes.product line) _)
      as [ps1 | e] eqn:Hsave; [| discriminate].
    apply save_Ok_inv in Hsave as [_ ->].
    apply IH in H as [Hnone Hsome]. split.
    + intros id Hid. apply Hnone.
      rewrite lookup_insert_ne; [exact Hid | congruence].
    + intros id p0 Hp0. simpl.
      destruct (decide (Routes.product line = id)) as [<- | Hne].
      * rewrite (Hsome _ _ (lookup_insert_eq _ _ _)).
        rewrite Hp in Hp0. inversion Hp0; subst p0. reflexivity.
      * rewrite (Hsome id p0); [reflexivity |].
        now rewrite lookup_insert_ne.
Qed.

Lemma productsValid_shopDb : productsValid shopDb.
Proof.
  apply (bool_decide_unpack
           (map_Forall (fun _ p => Product.validate p = [])
              (products shopDb))).
  vm_compute. exact I.
Qed.

(** X4.  The stock that an order request reserves is never given back when
    the request fails at the creation of the order.  No request is
    answered 201; when all lines of a request pass the stock check, the
    handler answers 500, stores no order and touches no supplier, and it
    leaves every product with the quantity of each line that names it
    taken from its on-hand quantity, line by line, and with its other
    fields as they were. *)
Theorem rejected_order_keeps_stock_reserved (db : Db) (user : nat)
    (body : Routes.OrderBody) (now : JsDate) :
  (forall o, (Routes.postOrder db user body now).2 <> Json 201 o) /\
  (forall ps orderItems subtotal,
     Routes.reserveItems (products db) (Routes.items body) [] 0
     = (ps, Routes.Completed orderItems subtotal) ->
     Routes.postOrder db user body now
     = (mkDb ps (suppliers db) (orders db), JsonMessage 500 ServerError) /\
     (forall id, products db !! id = None -> ps !! id = None) /\
     (forall id p, products db !! id = Some p ->
        ps !! id
        = Some (Product.mk (Product.name p) (Product.price p)
                  (Product.cost p)
                  (reservedStock id (Routes.items body)
                     (Product.stockQuantity p))
                  (Product.minStockLevel p) (Product.supplier p)
                  (Product.isActive p)))).
Proof.
  split; [intros o; apply postOrder_not_created |].
  intros ps ois sub Hloop.
  split; [exact (postOrder_completed db user body now ps ois sub Hloop) |].
  exact (reserveItems_completed_reserved _ _ _ _ _ _ _ Hloop).
Qed.

Lemma rejected_order_keeps_stock_reserved_witness :
  exists ps,
    Routes.postOrder shopDb 9 noPayment may1
    = (mkDb ps ∅ ∅, JsonMessage 500 ServerError) /\
    ps !! 1%nat = Some (Product.mk "Widget" 1000 600 3 1 7 true) /\
    ps !! 2%nat = Some (Product.mk "Gadget" 500 300 3 1 7 true).
Proof.
  destruct (rejected_order_keeps_stock_reserved shopDb 9 noPayment may1)
    as [_ Hkept].
  destruct (Hkept (<[1%nat := Product.mk "Widget" 1000 600 3 1 7 true]>
                     {[ 2%nat := Product.mk "Gadget" 500 300 3 1 7 true ]})
              [OrderItem.mk 1 2 1000 2000; OrderItem.mk 2 1 500 500] 2500)
    as (E & _ & Hstock); [vm_compute; reflexivity |].
  eexists. split; [exact E |]. split.
  - exact (Hstock 1%nat (Product.mk "Widget" 1000 600 5 1 7 true) eq_refl).
  - exact (Hstock 2%nat (Product.mk "Gadget" 500 300 4 1 7 true) eq_refl).
Defined.

(** ** Status transitions and edits *)





(** X23.  A request without a status unsets the stored status, and an
    order without a stored status is loaded with the default of the schema.
    So after such a request on a stored order that passes its schema,
    whatever its status was, the handlers load the order as pending again,
    and the edit route no longer refuses it for its status. *)
Theorem unset_status_is_loaded_as_pending (db : Db) (id : nat) (o : Order.t)
    (now : JsDate) :
  orders db !! id = Some o -> Order.validate o = [] ->
  let db' := (Routes.putOrderStatus db id Order.Undefined now).1 in
  Order.status <$> orders db' !! id = Some Order.Undefined /\
  Order.status <$> Order.findById (orders db') id
  = Some (Order.Str "pending") /\
  forall body,
    (Routes.putOrder db' id body).2 <> JsonMessage 400 NotPending.
Proof.
  intros Ho Hv db'.
  assert (Hu : Order.validate (Order.set_status o Order.Undefined) = []).
  { apply (Order_validate_set_status o _ Hv). intros s E. discriminate. }
  assert (Hstored : orders db'
                    = <[id := Order.set_status o Order.Undefined]> (orders db)).
  { subst db'. unfold Routes.putOrderStatus, Order.updateStatus.
    rewrite (findById_stored _ _ _ Ho). simpl.
    rewrite set_status_hydrate. now rewrite (save_valid _ _ _ _ Hu). }
  assert (Hfind : Order.findById (orders db') id
                  = Some (Order.set_status o (Order.Str "pending"))).
  { unfold Order.findById. rewrite Hstored, lookup_insert_eq. reflexivity. }
  split; [now rewrite Hstored, lookup_insert_eq |].
  split; [now rewrite Hfind |].
  intros body. unfold Routes.putOrder. rewrite Hfind. simpl.
  destruct (save _ _ _ _); discriminate.
Qed.

Lemma unset_status_is_loaded_as_pending_witness :
  Routes.putOrder shippedDb placedId retag
  = (shippedDb, JsonMessage 400 NotPending) /\
  Order.status
    <$> orders (Routes.putOrderStatus shippedDb placedId Order.Undefined
                  may2).1 !! placedId
  = Some Order.Undefined /\
  (Routes.putOrder
     (Routes.putOrderStatus shippedDb placedId Order.Undefined may2).1
     placedId retag).2
  <> JsonMessage 400 NotPending /\
  exists o',
    (Routes.putOrder
       (Routes.putOrderStatus shippedDb placedId Order.Undefined may2).1
       placedId retag).2
    = Json 200 (Some o') /\
    Order.status o' = Order.Str "pending" /\ Order.tax o' = 100.
Proof.
  destruct (unset_status_is_loaded_as_pending shippedDb placedId
              (Order.mk "ORD-20240501-001" alice
                 [OrderItem.mk 1 2 1000 2000; OrderItem.mk 2 1 500 500]
                 2500 200 300 3000 (Order.Str "shipped") "pending"
                 (Some "cash") None 9 (Some may2) None may1) may2)
    as (Hunset & _ & Hedit);
    [vm_compute; reflexivity | vm_compute; reflexivity |].
  split; [vm_compute; reflexivity |].
  split; [exact Hunset |]. split; [apply Hedit |].
  eexists. split; [vm_compute; reflexivity |]. split; reflexivity.
Defined.

Lemma fold_left_totals (items : list OrderItem.t) (acc : Z) :
  fold_left (fun sum item => sum + OrderItem.total item) items acc
  = acc + sumTotals items.
Proof.
  revert acc. induction items as [| item rest IH]; intros acc; simpl;
    [lia | rewrite IH; lia].
Qed.

Lemma calculateTotals_amounts (o : Order.t) :
  Order.subtotal (Order.calculateTotals o) = sumTotals (Order.items o) /\
  Order.total (Order.calculateTotals o)
  = sumTotals (Order.items o) + Order.tax o + Order.shipping o /\
  Order.set_total (Order.set_subtotal (Order.calculateTotals o)
                     (Order.subtotal o)) (Order.total o)
  = o.
Proof.
  unfold Order.calculateTotals. simpl. rewrite fold_left_totals.
  repeat split; now destruct o.
Qed.

(** X6.  [calculateTotals] sets the subtotal to the sum of the line totals
    and the total to that sum plus tax and shipping, whatever amounts the
    order carried, changes nothing else, and is idempotent. *)
Theorem calculateTotals_sets_both_amounts (o : Order.t) :
  Order.subtotal (Order.calculateTotals o) = sumTotals (Order.items o) /\
  Order.total (Order.calculateTotals o)
  = sumTotals (Order.items o) + Order.tax o + Order.shipping o /\
  Order.set_total (Order.set_subtotal (Order.calculateTotals o)
                     (Order.subtotal o)) (Order.total o)
  = o /\
  Order.calculateTotals (Order.calculateTotals o) = Order.calculateTotals o.
Proof.
  destruct (calculateTotals_amounts o) as (Hs & Ht & Hrest).
  repeat (split; [assumption |]).
  unfold Order.calculateTotals. simpl. reflexivity.
Qed.

Lemma calculateTotals_sets_both_amounts_witness :
  Order.subtotal (Order.calculateTotals (Routes.assign placedOrder relined))
  = 4000 /\
  Order.total (Order.calculateTotals (Routes.assign placedOrder relined))
  = 4500 /\
  Order.subtotal (Routes.assign placedOrder relined) = 1 /\
  Order.total (Routes.assign placedOrder relined) = 2.
Proof.
  destruct (calculateTotals_sets_both_amounts
              (Routes.assign placedOrder relined)) as (Hs & Ht & _).
  split; [rewrite Hs; reflexivity |].
  split; [rewrite Ht; reflexivity |].
  split; reflexivity.
Defined.

Lemma calculateTotals_assign_withoutTotals (o : Order.t)
    (body : Routes.OrderPatch) :
  Order.calculateTotals (Routes.assign o (withoutTotals body))
  = Order.calculateTotals (Routes.assign o body).
Proof. reflexivity. Qed.

(** X7.  The edit route ignores a [subtotal] or [total] sent in the body:
    it answers and stores the same as without them, the stored subtotal
    being the sum of the (possibly replaced) line totals and the total that
    sum plus tax and shipping.  It never touches a product or a supplier,
    so replaced lines leave the reserved stock as it was.  The stored
    status is the one sent in the body, if any. *)
Theorem edit_recomputes_totals_keeps_stock (db : Db) (id : nat)
    (body : Routes.OrderPatch) :
  Routes.putOrder db id body = Routes.putOrder db id (withoutTotals body) /\
  products (Routes.putOrder db id body).1 = products db /\
  suppliers (Routes.putOrder db id body).1 = suppliers db /\
  forall db' o',
    Routes.putOrder db id body = (db', Json 200 (Some o')) ->
    exists o,
      orders db !! id = Some o /\
      orders db' = <[id := o']> (orders db) /\
      Order.items o' = default (Order.items o) (Routes.patch_items body) /\
      Order.subtotal o' = sumTotals (Order.items o') /\
      Order.total o' = Order.subtotal o' + Order.tax o' + Order.shipping o' /\
      Order.status o'
      = Order.Str (default "pending" (Routes.patch_status body)).
Proof.
  unfold Routes.putOrder.
  destruct (Order.findById (orders db) id) as [o |] eqn:Ho.
  2: { repeat split; intros; discriminate. }
  rewrite calculateTotals_assign_withoutTotals.
  split; [reflexivity |].
  case_bool_decide as Hpending; simpl.
  2: { repeat split; intros; discriminate. }
  destruct (save Order.validate (orders db) id _) as [os | e] eqn:Hsave.
  2: { repeat split; intros; discriminate. }
  split; [reflexivity |]. split; [reflexivity |].
  intros db' o' H. apply save_Ok_inv in Hsave as [_ ->].
  apply findById_Some in Ho as (stored & Hstored & ->).
  rewrite findById_insert in H.
  rewrite (hydrate_set
             (Order.calculateTotals
                (Routes.assign (Order.hydrate stored) body))) in H.
  2: { change (Order.status
                 (Order.calculateTotals
                    (Routes.assign (Order.hydrate stored) body)))
         with (match Routes.patch_status body with
               | Some s => Order.Str s
               | None => Order.status (Order.hydrate stored)
               end).
       rewrite Hpending. now destruct (Routes.patch_status body). }
  inversion H; subst; clear H.
  exists stored. split; [exact Hstored |]. split; [reflexivity |].
  destruct (calculateTotals_amounts (Routes.assign (Order.hydrate stored) body))
    as (Hs & Ht & _).
  split.
  { simpl. unfold Order.hydrate. now destruct (Order.status stored). }
  split; [exact Hs |].
  split; [rewrite Ht, Hs; reflexivity |].
  simpl. rewrite Hpending. now destruct (Routes.patch_status body).
Qed.

Lemma edit_recomputes_totals_keeps_stock_witness :
  exists o',
    (Routes.putOrder orderedDb placedId relined).2 = Json 200 (Some o') /\
    Order.subtotal o' = 4000 /\ Order.total o' = 4500 /\
    products (Routes.putOrder orderedDb placedId relined).1
    = products orderedDb.
Proof.
  destruct (edit_recomputes_totals_keeps_stock orderedDb placedId relined)
    as (_ & Hproducts & _ & Hstored).
  eexists. split; [vm_compute; reflexivity |].
  match goal with
  | |- Order.subtotal ?o' = _ /\ _ =>
      destruct (Hstored (Routes.putOrder orderedDb placedId relined).1 o')
        as (o & _ & _ & _ & Hs & Ht & _); [vm_compute; reflexivity |]
  end.
  split; [rewrite Hs; reflexivity |].
  split; [rewrite Ht, Hs; reflexivity | exact Hproducts].
Defined.

(** ** Order numbers can be read back *)

Lemma append_inj_length (a a' b b' : string) :
  String.length a = String.length a' ->
  (a ++ b)%string = (a' ++ b')%string -> a = a' /\ b = b'.
Proof.
  revert a'. induction a as [| c a IH]; intros [| c' a'] Hlen H;
    simpl in *; try discriminate.
  - auto.
  - inversion H; subst. inversion Hlen as [Hlen'].
    destruct (IH a' Hlen' ltac:(assumption)) as [-> ->]. auto.
Qed.

Lemma append_length (a b : string) :
  String.length (a ++ b)%string = (String.length a + String.length b)%nat.
Proof. induction a as [| c a IH]; simpl; [reflexivity | now rewrite IH]. Qed.

Lemma fixedWidth_length (w n : nat) : String.length (fixedWidth w n) = w.
Proof.
  revert n. induction w as [| w IH]; intros n; simpl; [reflexivity |].
  rewrite append_length, IH. simpl. lia.
Qed.

Lemma digitChar_inj (n n' : nat) :
  digitChar n = digitChar n' -> (n mod 10 = n' mod 10)%nat.
Proof.
  unfold digitChar. intros H.
  apply (f_equal nat_of_ascii) in H.
  pose proof (Nat.mod_upper_bound n 10 ltac:(lia)).
  pose proof (Nat.mod_upper_bound n' 10 ltac:(lia)).
  rewrite !nat_ascii_embedding in H by lia. lia.
Qed.

Lemma fixedWidth_inj (w : nat) :
  forall n n' : nat,
  (n < 10 ^ w)%nat -> (n' < 10 ^ w)%nat ->
  fixedWidth w n = fixedWidth w n' -> n = n'.
Proof.
  induction w as [| w IH]; intros n n' Hn Hn' H.
  - rewrite Nat.pow_0_r in Hn, Hn'. lia.
  - cbn [fixedWidth] in H.
    apply append_inj_length in H as [Hhigh Hlow];
      [| now rewrite !fixedWidth_length].
    inversion Hlow as [Hdigit]. apply digitChar_inj in Hdigit.
    rewrite Nat.pow_succ_r' in Hn, Hn'.
    apply IH in Hhigh;
      [| apply Nat.Div0.div_lt_upper_bound; lia
       | apply Nat.Div0.div_lt_upper_bound; lia].
    rewrite (Nat.div_mod_eq n 10), (Nat.div_mod_eq n' 10). lia.
Qed.

Lemma formatOrderNumber_inj (y m d k y' m' d' k' : nat) :
  (y < 100 * 100)%nat -> (y' < 100 * 100)%nat ->
  (m < 100)%nat -> (m' < 100)%nat ->
  (d < 100)%nat -> (d' < 100)%nat ->
  (k < 1000)%nat -> (k' < 1000)%nat ->
  formatOrderNumber y m d k = formatOrderNumber y' m' d' k' ->
  y = y' /\ m = m' /\ d = d' /\ k = k'.
Proof.
  intros Hy Hy' Hm Hm' Hd Hd' Hk Hk' H. unfold formatOrderNumber in H.
  pose proof (fixedWidth_length 4 y) as Ly.
  pose proof (fixedWidth_length 4 y') as Ly'.
  pose proof (fixedWidth_length 2 m) as Lm.
  pose proof (fixedWidth_length 2 m') as Lm'.
  pose proof (fixedWidth_length 2 d) as Ld.
  pose proof (fixedWidth_length 2 d') as Ld'.
  remember (fixedWidth 4 y) as sy eqn:Ey.
  remember (fixedWidth 4 y') as sy' eqn:Ey'.
  remember (fixedWidth 2 m) as sm eqn:Em.
  remember (fixedWidth 2 m') as sm' eqn:Em'.
  remember (fixedWidth 2 d) as sd eqn:Ed.
  remember (fixedWidth 2 d') as sd' eqn:Ed'.
  remember (fixedWidth 3 k) as sk eqn:Ek.
  remember (fixedWidth 3 k') as sk' eqn:Ek'.
  apply (append_inj_length "ORD-" "ORD-") in H as [_ H]; [| reflexivity].
  apply append_inj_length in H as [Hy'' H]; [| congruence].
  apply append_inj_length in H as [Hm'' H]; [| congruence].
  apply append_inj_length in H as [Hd'' H]; [| congruence].
  apply (append_inj_length "-" "-") in H as [_ Hk'']; [| reflexivity].
  subst.
  assert (P4 : (10 ^ 4 = 100 * 100)%nat) by (vm_compute; reflexivity).
  assert (P3 : (10 ^ 3 = 1000)%nat) by (vm_compute; reflexivity).
  assert (P2 : (10 ^ 2 = 100)%nat) by (vm_compute; reflexivity).
  apply fixedWidth_inj in Hy'', Hm'', Hd'', Hk'';
    rewrite ?P4, ?P3, ?P2; auto.
Qed.

(** X9.  An order number determines the day and the count it was generated
    from: for dates of the four-digit years and fewer than 999 orders on
    each day, two generated numbers are equal only when the two dates are
    the same calendar day and the two counts are equal. *)
Theorem order_number_determines_day_and_count
    (c c' : gmap nat Order.t) (a b : JsDate) :
  calendarDate a -> calendarDate b ->
  (Order.countDocuments (Order.createdOn a) c + 1 < 1000)%nat ->
  (Order.countDocuments (Order.createdOn b) c' + 1 < 1000)%nat ->
  Order.generateOrderNumber c a = Order.generateOrderNumber c' b ->
  dayOf a = dayOf b /\
  Order.countDocuments (Order.createdOn a) c
  = Order.countDocuments (Order.createdOn b) c'.
Proof.
  intros Ha Hb Hk Hk' H.
  rewrite !generateOrderNumber_format in H by assumption.
  destruct Ha as (Hy & Hm & Hd), Hb as (Hy' & Hm' & Hd').
  apply formatOrderNumber_inj in H as (Ey & Em & Ed & Ek); try lia.
  apply Nat.add_cancel_r in Em, Ek.
  unfold dayOf. split; [| exact Ek].
  now rewrite Ey, Em, Ed.
Qed.

Lemma order_number_determines_day_and_count_witness :
  dayOf may1later = dayOf may1 /\
  Order.countDocuments (Order.createdOn may1later) ∅
  = Order.countDocuments (Order.createdOn may1) ∅.
Proof.
  apply order_number_determines_day_and_count.
  - unfold calendarDate.
    repeat split; first [apply Nat.leb_le | apply Nat.ltb_lt];
      vm_compute; reflexivity.
  - unfold calendarDate.
    repeat split; first [apply Nat.leb_le | apply Nat.ltb_lt];
      vm_compute; reflexivity.
  - apply Nat.ltb_lt. vm_compute. reflexivity.
  - apply Nat.ltb_lt. vm_compute. reflexivity.
  - vm_compute. reflexivity.
Defined.

(** ** Supplier balances *)




(** What the balance route does to a stored supplier that passes its
    schema, for an operation that changes the balance to [balance]. *)
Lemma putSupplierBalance_stores (db : Db) (id : nat) (s : Supplier.t)
    (amount : Z) (operation : option string) (balance : Z) :
  suppliers db !! id = Some s -> Supplier.validate s = [] ->
  Supplier.updateBalance (suppliers db) id s amount operation
  = save Supplier.validate (suppliers db) id
      (Supplier.set_currentBalance s balance) ->
  Routes.putSupplierBalance db id amount operation
  = (set_suppliers db
       (<[id := Supplier.set_currentBalance s balance]> (suppliers db)),
     Json 200 (Some (Supplier.set_currentBalance s balance))).
Proof.
  intros Hs Hv E. unfold Routes.putSupplierBalance. rewrite Hs, E.
  rewrite save_valid by exact Hv. now rewrite lookup_insert_eq.
Qed.





(** X13.  The delete route refuses a stored supplier with a positive
    balance (400, database unchanged) and removes one whose balance is zero
    or negative, leaving the other suppliers.  After a [subtract] of at
    least the balance the supplier can be deleted, and the database is
    then the original one without that supplier. *)
Theorem supplier_deleted_only_when_settled (db : Db) (id : nat)
    (s : Supplier.t) :
  suppliers db !! id = Some s ->
  (0 < Supplier.currentBalance s ->
   SupplierRoutes.deleteSupplier db id
   = (db, Sent 400 "Cannot delete supplier with outstanding balance")) /\
  (Supplier.currentBalance s <= 0 ->
   SupplierRoutes.deleteSupplier db id
   = (set_suppliers db (delete id (suppliers db)),
      Sent 200 "Supplier removed")) /\
  (Supplier.validate s = [] ->
   forall amount, Supplier.currentBalance s <= amount ->
     SupplierRoutes.deleteSupplier
       (Routes.putSupplierBalance db id amount (Some "subtract")).1 id
     = (set_suppliers db (delete id (suppliers db)),
        Sent 200 "Supplier removed")).
Proof.
  intros Hs. unfold SupplierRoutes.deleteSupplier. split; [| split].
  - intros Hpos. rewrite Hs.
    destruct (Z.ltb_spec 0 (Supplier.currentBalance s)); [reflexivity | lia].
  - intros Hle. rewrite Hs.
    destruct (Z.ltb_spec 0 (Supplier.currentBalance s)); [lia | reflexivity].
  - intros Hv amount Hle.
    rewrite (putSupplierBalance_stores db id s amount (Some "subtract")
               (Z.max 0 (Supplier.currentBalance s - amount)) Hs Hv eq_refl).
    simpl. rewrite lookup_insert_eq. simpl.
    destruct (Z.ltb_spec 0 (Z.max 0 (Supplier.currentBalance s - amount)));
      [lia |].
    unfold set_suppliers. simpl. now rewrite delete_insert_eq.
Qed.

Lemma supplier_deleted_only_when_settled_witness :
  SupplierRoutes.deleteSupplier owingDb 4
  = (owingDb, Sent 400 "Cannot delete supplier with outstanding balance") /\
  SupplierRoutes.deleteSupplier
    (Routes.putSupplierBalance owingDb 4 2500 (Some "subtract")).1 4
  = (set_suppliers owingDb (delete 4%nat (suppliers owingDb)),
     Sent 200 "Supplier removed").
Proof.
  destruct (supplier_deleted_only_when_settled owingDb 4 owing)
    as (Hrefused & _ & Hsettled); [reflexivity |].
  split.
  - apply Hrefused. simpl. lia.
  - apply Hsettled; [reflexivity | simpl; lia].
Defined.

(** ** Low-stock alerts *)

Lemma putProductStock_Ok (db db' : Db) (id : nat) (q : Z)
    (operation : option string) (r : option Product.t) :
  Routes.putProductStock db id q operation = (db', Json 200 r) ->
  exists p v,
    products db !! id = Some p /\
    db' = set_products db
            (<[id := Product.set_stockQuantity p v]> (products db)) /\
    (operation = Some "subtract" -> v = Product.stockQuantity p - q) /\
    (operation = Some "add" \/ operation = None ->
     v = Product.stockQuantity p + q).
Proof.
  unfold Routes.putProductStock.
  destruct (products db !! id) as [p |] eqn:Hp; [| discriminate].
  destruct (Product.updateStock (products db) id p q operation)
    as [ps | e] eqn:E; [| discriminate].
  intros H. inversion H; subst; clear H.
  unfold Product.updateStock in E.
  destruct (decide (default "add" operation = "add")) as [Ha | Ha].
  - apply save_Ok_inv in E as [_ ->]. eexists p, _.
    split; [reflexivity |]. split; [reflexivity |]. split; [| reflexivity].
    intros ->. discriminate.
  - destruct (decide (default "add" operation = "subtract")) as [Hs | Hs].
    + destruct (Z.geb_spec (Product.stockQuantity p) q); [| discriminate].
      apply save_Ok_inv in E as [_ ->]. eexists p, _.
      split; [reflexivity |]. split; [reflexivity |].
      split; [reflexivity |]. intros [-> | ->]; contradiction.
    + apply save_Ok_inv in E as [_ ->].
      exists p, (Product.stockQuantity p).
      rewrite set_stockQuantity_same.
      split; [reflexivity |]. split; [reflexivity |].
      split; [intros ->; contradiction |].
      intros [-> | ->]; contradiction.
Qed.

Lemma lowStockProducts_dom (db : Db) (k : nat) :
  k ∈ dom (ProductRoutes.lowStockProducts db) <->
  exists p, products db !! k = Some p /\ Product.isLowStock p = true.
Proof.
  unfold ProductRoutes.lowStockProducts, Product.isLowStock.
  rewrite elem_of_dom. unfold is_Some.
  setoid_rewrite map_lookup_filter_Some. simpl.
  setoid_rewrite Z.leb_le. reflexivity.
Qed.

(** X14.  The low-stock alert lists exactly the stored products for which
    [isLowStock] holds.  After a successful stock-route call with a
    non-negative quantity, a [subtract] keeps every product on the list
    that was on it, and an [add] puts no product on the list that was not
    on it. *)
Theorem low_stock_alerts_follow_stock (db db' : Db) (id : nat) (q : Z)
    (operation : option string) (r : option Product.t) :
  0 <= q ->
  Routes.putProductStock db id q operation = (db', Json 200 r) ->
  (forall k,
     k ∈ dom (ProductRoutes.lowStockProducts db) <->
     exists p, products db !! k = Some p /\ Product.isLowStock p = true) /\
  (operation = Some "subtract" ->
   dom (ProductRoutes.lowStockProducts db)
   ⊆ dom (ProductRoutes.lowStockProducts db')) /\
  (operation = Some "add" \/ operation = None ->
   dom (ProductRoutes.lowStockProducts db')
   ⊆ dom (ProductRoutes.lowStockProducts db)).
Proof.
  intros Hq H. split; [intros k; apply lowStockProducts_dom |].
  apply putProductStock_Ok in H as (p & v & Hp & -> & Hsub & Hadd).
  split.
  - intros Hop k. rewrite !lowStockProducts_dom.
    intros (p0 & Hp0 & Hlow). simpl.
    destruct (decide (id = k)) as [<- | Hne].
    + rewrite lookup_insert_eq. eexists. split; [reflexivity |].
      rewrite Hp in Hp0. inversion Hp0; subst p0.
      unfold Product.isLowStock in *. simpl.
      apply Z.leb_le. apply Z.leb_le in Hlow. specialize (Hsub Hop). lia.
    + rewrite lookup_insert_ne by exact Hne. eauto.
  - intros Hop k. rewrite !lowStockProducts_dom. simpl.
    intros (p0 & Hp0 & Hlow).
    destruct (decide (id = k)) as [<- | Hne].
    + rewrite lookup_insert_eq in Hp0. inversion Hp0; subst p0.
      exists p. split; [exact Hp |].
      unfold Product.isLowStock in *. simpl in Hlow.
      apply Z.leb_le. apply Z.leb_le in Hlow. specialize (Hadd Hop). lia.
    + rewrite lookup_insert_ne in Hp0 by exact Hne. eauto.
Qed.

Lemma low_stock_alerts_follow_stock_witness :
  dom (ProductRoutes.lowStockProducts fewWidgetsDb)
  ⊆ dom (ProductRoutes.lowStockProducts
           (Routes.putProductStock fewWidgetsDb 1 2 (Some "subtract")).1).
Proof.
  assert (H0 : 0 <= 2) by lia.
  destruct (low_stock_alerts_follow_stock fewWidgetsDb
              (Routes.putProductStock fewWidgetsDb 1 2 (Some "subtract")).1
              1 2 (Some "subtract")
              (Some (Product.set_stockQuantity fewWidgets 1)) H0)
    as (_ & Hkept & _); [vm_compute; reflexivity |].
  apply Hkept. reflexivity.
Defined.

(** ** Authentication and authorisation *)

Lemma split_no_separator (sep : Ascii.ascii) (s : string) :
  ~ In sep (String.list_ascii_of_string s) -> split sep s = [s].
Proof.
  induction s as [| c s IH]; intros Hno; simpl; [reflexivity |].
  simpl in Hno.
  destruct (Ascii.eqb_spec c sep) as [-> | Hne]; [tauto |].
  rewrite IH by tauto. reflexivity.
Qed.

Lemma split_Bearer (token : string) :
  split " " ("Bearer " +:+ token) = "Bearer" :: split " " token.
Proof.
  change ("Bearer " +:+ token)
    with (String "B" (String "e" (String "a" (String "r" (String "e"
            (String "r" (String " " token))))))).
  cbn [split Ascii.eqb Bool.eqb]. reflexivity.
Qed.

Lemma prefix_Bearer (token : string) :
  String.prefix "Bearer" ("Bearer " +:+ token) = true.
Proof. reflexivity. Qed.

Section Protected.

Variable verify : string -> option nat.

Lemma protect_Next (users : gmap nat User.t) (authorization : option string)
    (id : nat) (u : User.t) :
  Auth.protect verify users authorization = Auth.Next id u ->
  users !! id = Some u /\ User.isActive u = true /\
  exists header token,
    authorization = Some header /\ String.prefix "Bearer" header = true /\
    split " " header !! 1%nat = Some token /\ token <> "" /\
    verify token = Some id.
Proof.
  unfold Auth.protect.
  destruct authorization as [header |]; [| discriminate].
  destruct (String.prefix "Bearer" header) eqn:Hprefix; [| discriminate].
  destruct (split " " header !! 1%nat) as [token |] eqn:Htoken;
    [| discriminate].
  destruct (decide (token = "")) as [| Hne]; [discriminate |].
  destruct (verify token) as [id' |] eqn:Hverify; [| discriminate].
  destruct (users !! id') as [u' |] eqn:Hu; [| discriminate].
  destruct (User.isActive u') eqn:Hactive; [| discriminate].
  intros H. inversion H; subst. eauto 10.
Qed.

(** X15.  [protect] lets a request through exactly as the stored, active
    user whose id a verified token carries: a header [Bearer <token>] with
    a non-empty token without spaces that verifies to the id of a stored
    active user passes as that user; and whenever [protect] calls
    [next()], the user it sets is stored under the verified id and is
    active.  Without a header, or with a verified token of a deactivated or
    missing user, the request is answered 401. *)
Theorem protect_admits_only_active_users (users : gmap nat User.t) :
  (forall token id u,
     token <> "" -> ~ In " "%char (String.list_ascii_of_string token) ->
     verify token = Some id -> users !! id = Some u ->
     Auth.protect verify users (Some ("Bearer " +:+ token))
     = (if User.isActive u then Auth.Next id u
        else Auth.Denied 401 "User account is deactivated")) /\
  (forall token id,
     token <> "" -> ~ In " "%char (String.list_ascii_of_string token) ->
     verify token = Some id -> users !! id = None ->
     Auth.protect verify users (Some ("Bearer " +:+ token))
     = Auth.Denied 401 "User not found") /\
  (forall authorization id u,
     Auth.protect verify users authorization = Auth.Next id u ->
     users !! id = Some u /\ User.isActive u = true /\
     exists token, token <> "" /\ verify token = Some id) /\
  Auth.protect verify users None = Auth.Denied 401 "Not authorized, no token".
Proof.
  assert (Hsplit : forall token,
            ~ In " "%char (String.list_ascii_of_string token) ->
            split " " ("Bearer " +:+ token) !! 1%nat = Some token).
  { intros token Hno.
    now rewrite split_Bearer, (split_no_separator _ _ Hno). }
  split; [| split; [| split]].
  - intros token id u Hne Hno Hverify Hu. unfold Auth.protect.
    rewrite prefix_Bearer, (Hsplit token Hno).
    destruct (decide (token = "")); [contradiction |].
    now rewrite Hverify, Hu.
  - intros token id Hne Hno Hverify Hu. unfold Auth.protect.
    rewrite prefix_Bearer, (Hsplit token Hno).
    destruct (decide (token = "")); [contradiction |].
    now rewrite Hverify, Hu.
  - intros authorization id u H.
    apply protect_Next in H
      as (Hu & Hactive & header & token & _ & _ & _ & Hne & Hverify).
    eauto.
  - reflexivity.
Qed.

Lemma guarded_result {R : Type} (users : gmap nat User.t)
    (authorization : option string) (roles : option (list string))
    (db : Db) (handler : nat -> Db * R) :
  (exists status message,
     Auth.guarded verify users authorization roles db handler
     = (db, inl (Sent status message))) \/
  (exists id u,
     Auth.protect verify users authorization = Auth.Next id u /\
     (forall rs, roles = Some rs -> User.role u ∈ rs) /\
     Auth.guarded verify users authorization roles db handler
     = ((handler id).1, inr (handler id).2)).
Proof.
  unfold Auth.guarded.
  destruct (Auth.protect verify users authorization) as [id u | st m];
    [| left; eauto].
  destruct roles as [rs |]; simpl.
  - case_bool_decide as Hrole; [| left; eauto].
    right. exists id, u. split; [reflexivity |].
    split; [intros rs' [= <-]; exact Hrole |].
    now destruct (handler id).
  - right. exists id, u. split; [reflexivity |].
    split; [discriminate |]. now destruct (handler id).
Qed.

(** X16.  The order routes change the database only for an authenticated
    user with an allowed role: whenever the database after the delete
    route differs from the one before, the request carried a verified
    token of a stored active user whose role is [admin]; for the status
    and the edit route the role is [admin] or [manager]; for the creation
    route any stored active user will do.  An authenticated user who is
    not an admin is answered 403 by the delete route, with the database
    unchanged. *)
Theorem order_routes_are_guarded (users : gmap nat User.t)
    (authorization : option string) (db : Db) :
  let authenticated (allowed : list string) : Prop :=
    exists id u, Auth.protect verify users authorization = Auth.Next id u /\
                 users !! id = Some u /\ User.isActive u = true /\
                 (allowed <> [] -> User.role u ∈ allowed) in
  (forall id,
     (Auth.deleteOrderRoute verify users authorization db id).1 <> db ->
     authenticated ["admin"]) /\
  (forall id status now,
     (Auth.putOrderStatusRoute verify users authorization db id status now).1
     <> db ->
     authenticated ["admin"; "manager"]) /\
  (forall id body,
     (Auth.putOrderRoute verify users authorization db id body).1 <> db ->
     authenticated ["admin"; "manager"]) /\
  (forall body now,
     (Auth.postOrderRoute verify users authorization db body now).1 <> db ->
     authenticated []) /\
  (forall uid u id,
     Auth.protect verify users authorization = Auth.Next uid u ->
     User.role u <> "admin" ->
     Auth.deleteOrderRoute verify users authorization db id
     = (db, inl (Sent 403
                   ("User role " +:+ User.role u
                    +:+ " is not authorized to access this route")))).
Proof.
  intros authenticated.
  assert (Hguard : forall (R : Type) roles (handler : nat -> Db * R),
            (Auth.guarded verify users authorization roles db handler).1
            <> db ->
            authenticated (default [] roles)).
  { intros R roles handler Hchanged.
    destruct (guarded_result users authorization roles db handler)
      as [(st & m & E) | (id & u & Hnext & Hrole & _)].
    - rewrite E in Hchanged. contradiction.
    - pose proof (protect_Next _ _ _ _ Hnext) as (Hu & Hactive & _).
      exists id, u. repeat (split; [assumption |]).
      destruct roles as [rs |]; simpl; [auto | contradiction]. }
  split; [intros id; apply (Hguard _ (Some ["admin"])) |].
  split; [intros id status now; apply (Hguard _ (Some ["admin"; "manager"])) |].
  split; [intros id body; apply (Hguard _ (Some ["admin"; "manager"])) |].
  split; [intros body now; apply (Hguard _ None) |].
  intros uid u id Hnext Hrole.
  unfold Auth.deleteOrderRoute, Auth.guarded. rewrite Hnext. simpl.
  case_bool_decide as Hin; [| reflexivity].
  apply list_elem_of_singleton in Hin. contradiction.
Qed.

(** X17.  Nobody deletes their own account through the delete route, and
    deleting another stored user removes that user only.  From then on the
    deleted user's token is refused by [protect], while every other user
    passes as before. *)
Theorem deleted_user_is_locked_out (users : gmap nat User.t)
    (requester id : nat) (u : User.t) :
  users !! id = Some u ->
  UserRoutes.deleteUser users id id
  = (users, Sent 400 "Cannot delete your own account") /\
  (requester <> id ->
   UserRoutes.deleteUser users requester id
   = (delete id users, Sent 200 "User removed") /\
   (forall authorization u',
      Auth.protect verify (delete id users) authorization
      <> Auth.Next id u') /\
   (forall authorization id' u',
      id' <> id ->
      Auth.protect verify users authorization = Auth.Next id' u' ->
      Auth.protect verify (delete id users) authorization
      = Auth.Next id' u')).
Proof.
  intros Hu. unfold UserRoutes.deleteUser. rewrite Hu. split.
  - destruct (decide (id = id)); [reflexivity | contradiction].
  - intros Hne. split; [| split].
    + destruct (decide (id = requester)); [congruence | reflexivity].
    + intros authorization u' H.
      apply protect_Next in H as (Hlook & _).
      now rewrite lookup_delete_eq in Hlook.
    + intros authorization id' u' Hother H.
      pose proof (protect_Next _ _ _ _ H)
        as (Hu' & Hactive & header & token & -> & Hprefix & Htoken & Hnonempty
            & Hverify).
      unfold Auth.protect. rewrite Hprefix, Htoken.
      destruct (decide (token = "")); [contradiction |].
      rewrite Hverify, lookup_delete_ne, Hu', Hactive by congruence.
      reflexivity.
Qed.

End Protected.

Lemma protect_admits_only_active_users_witness :
  Auth.protect sampleVerify staff (Some "Bearer t-mia") = Auth.Next 2 mia.
Proof.
  destruct (protect_admits_only_active_users sampleVerify staff)
    as (Hpass & _).
  apply (Hpass "t-mia" 2%nat mia); try reflexivity; try discriminate.
  simpl. intros H. repeat (destruct H as [H | H]; [discriminate |]).
  exact H.
Defined.

Lemma order_routes_are_guarded_witness :
  Auth.deleteOrderRoute sampleVerify staff (Some "Bearer t-mia") orderedDb
    placedId
  = (orderedDb,
     inl (Sent 403 "User role manager is not authorized to access this route")).
Proof.
  destruct (order_routes_are_guarded sampleVerify staff
              (Some "Bearer t-mia") orderedDb) as (_ & _ & _ & _ & Hdenied).
  apply (Hdenied 2%nat mia placedId); [reflexivity | discriminate].
Defined.

Lemma deleted_user_is_locked_out_witness :
  UserRoutes.deleteUser staff 1 2
  = (delete 2%nat staff, Sent 200 "User removed") /\
  Auth.protect sampleVerify (delete 2%nat staff) (Some "Bearer t-mia")
  <> Auth.Next 2 mia.
Proof.
  destruct (deleted_user_is_locked_out sampleVerify staff 1 2 mia)
    as [_ Hother]; [reflexivity |].
  destruct Hother as (Hremoved & Hlocked & _); [discriminate |].
  split; [exact Hremoved | apply Hlocked].
Defined.

(** ** Dashboard statistics *)

Lemma sumTotal_empty (P : Order.t -> bool) : Dashboard.sumTotal P ∅ = 0.
Proof. apply map_fold_empty. Qed.

Lemma sumTotal_insert (P : Order.t -> bool) (coll : gmap nat Order.t)
    (id : nat) (o : Order.t) :
  coll !! id = None ->
  Dashboard.sumTotal P (<[id := o]> coll)
  = (if P o then Order.total o else 0) + Dashboard.sumTotal P coll.
Proof.
  intros Hid. unfold Dashboard.sumTotal.
  rewrite map_fold_insert_L; [destruct (P o); lia | | exact Hid].
  intros j1 j2 z1 z2 y _ _ _. destruct (P z1), (P z2); lia.
Qed.

Lemma sumTotal_le (P Q : Order.t -> bool) (coll : gmap nat Order.t) :
  allValid Order.validate coll ->
  (forall id o, coll !! id = Some o -> P o = true -> Q o = true) ->
  0 <= Dashboard.sumTotal P coll <= Dashboard.sumTotal Q coll.
Proof.
  induction coll as [| id o coll Hid IH] using map_ind; intros Hvalid HPQ.
  - rewrite !sumTotal_empty. lia.
  - rewrite !sumTotal_insert by exact Hid.
    assert (Htotal : 0 <= Order.total o).
    { pose proof (Hvalid id o (lookup_insert_eq _ _ _)) as Hv.
      unfold Order.validate in Hv. rewrite !app_nil in Hv.
      destruct Hv as (_ & _ & _ & _ & _ & _ & _ & _ & Ht & _).
      now apply checkMin_nil in Ht. }
    assert (IH' : 0 <= Dashboard.sumTotal P coll <= Dashboard.sumTotal Q coll).
    { apply IH.
      - intros i x Hx. apply (Hvalid i x).
        rewrite lookup_insert_ne; [exact Hx | congruence].
      - intros i x Hx. apply (HPQ i x).
        rewrite lookup_insert_ne; [exact Hx | congruence]. }
    pose proof (HPQ id o (lookup_insert_eq _ _ _)) as Hhere.
    destruct (P o), (Q o); try lia; discriminate (Hhere eq_refl).
Qed.

Lemma sumTotal_ext (P Q : Order.t -> bool) (coll : gmap nat Order.t) :
  (forall id o, coll !! id = Some o -> P o = Q o) ->
  Dashboard.sumTotal P coll = Dashboard.sumTotal Q coll.
Proof.
  induction coll as [| id o coll Hid IH] using map_ind; intros HPQ.
  - now rewrite !sumTotal_empty.
  - rewrite !sumTotal_insert by exact Hid.
    rewrite (HPQ id o (lookup_insert_eq _ _ _)), IH; [reflexivity |].
    intros i x Hx. apply (HPQ i x).
    rewrite lookup_insert_ne; [exact Hx | congruence].
Qed.

Lemma countDocuments_disjoint (P Q : Order.t -> bool)
    (coll : gmap nat Order.t) :
  (forall o, P o = true -> Q o = true -> False) ->
  (Order.countDocuments P coll + Order.countDocuments Q coll
   <= size coll)%nat.
Proof.
  intros Hdisjoint.
  induction coll as [| id o coll Hid IH] using map_ind.
  - unfold Order.countDocuments. rewrite !map_filter_empty, map_size_empty.
    lia.
  - rewrite !countDocuments_insert, map_size_insert_None by exact Hid.
    specialize (Hdisjoint o).
    destruct (P o), (Q o); try lia; exfalso; auto.
Qed.

(** X18.  On the dashboard, for stored orders that pass their schema, the
    revenue counts exactly the orders with status [delivered] (the value
    [completed] of its filter is not a declared status), it is not
    negative, this month's revenue never exceeds it, and it never exceeds
    the value of all orders.  Whatever is stored, the pending and the
    completed orders together are at most all orders. *)
Theorem dashboard_revenue_is_delivered_orders (db : Db) (now : JsDate) :
  (ordersValid db ->
   Dashboard.totalRevenue db
   = Dashboard.sumTotal
       (fun o => bool_decide (Order.status o = Order.Str "delivered"))
       (orders db) /\
   0 <= Dashboard.thisMonthRevenue db now <= Dashboard.totalRevenue db /\
   Dashboard.totalRevenue db <= Dashboard.totalOrderValue db) /\
  (Dashboard.pendingOrders db + Dashboard.completedOrders db
   <= Dashboard.totalOrders db)%nat.
Proof.
  split.
  - intros Hvalid. split; [| split].
    + apply sumTotal_ext. intros id o Ho.
      pose proof (Hvalid id o Ho) as Hv.
      apply Order_validate_nil in Hv as [_ Hstatus].
      unfold Dashboard.completed.
      apply bool_decide_ext.
      rewrite !elem_of_cons, elem_of_nil.
      split; [| intros ->; auto].
      intros [Hc | [Hd | []]]; [| exact Hd].
      apply Hstatus in Hc. unfold Order.statusEnum in Hc.
      rewrite !elem_of_cons, elem_of_nil in Hc.
      repeat (destruct Hc as [Hc | Hc]; [discriminate |]).
      destruct Hc.
    + apply (sumTotal_le _ _ _ Hvalid).
      intros id o _ H. now apply andb_prop in H as [H _].
    + unfold Dashboard.totalRevenue, Dashboard.totalOrderValue.
      apply (sumTotal_le _ _ _ Hvalid). reflexivity.
  - apply countDocuments_disjoint.
    intros o Hp Hc. unfold Dashboard.completed in Hc.
    apply bool_decide_eq_true_1 in Hp, Hc. rewrite Hp in Hc.
    rewrite !elem_of_cons in Hc. rewrite elem_of_nil in Hc.
    intuition discriminate.
Qed.

Lemma ordersValid_deliveredDb : ordersValid deliveredDb.
Proof.
  apply (bool_decide_unpack
           (map_Forall (fun _ o => Order.validate o = [])
              (orders deliveredDb))).
  vm_compute. exact I.
Qed.

Lemma dashboard_revenue_is_delivered_orders_witness :
  Dashboard.totalRevenue deliveredDb
  = Dashboard.sumTotal
      (fun o => bool_decide (Order.status o = Order.Str "delivered"))
      (orders deliveredDb).
Proof.
  destruct (dashboard_revenue_is_delivered_orders deliveredDb may2)
    as [Hrevenue _].
  apply Hrevenue. exact ordersValid_deliveredDb.
Defined.

(** ** Edge cases of the order handler *)



(** X21.  Deleting a product removes that product and nothing else: the
    orders keep their lines on it.  A later order request whose first line
    names the deleted product is answered 400 'Product ... not found' with
    the database unchanged. *)
Theorem deleted_product_is_not_found (db : Db) (id : nat) (p : Product.t) :
  products db !! id = Some p ->
  let db' := (ProductRoutes.deleteProduct db id).1 in
  ProductRoutes.deleteProduct db id
  = (set_products db (delete id (products db)), Sent 200 "Product removed") /\
  orders db' = orders db /\
  (forall k, k <> id -> products db' !! k = products db !! k) /\
  forall user body now q rest,
    Routes.items body = Routes.mkReqItem id q :: rest ->
    Routes.postOrder db' user body now
    = (db', JsonMessage 400 (ProductNotFoundMsg id)).
Proof.
  intros Hp db'. unfold ProductRoutes.deleteProduct in *. subst db'.
  rewrite Hp. simpl.
  split; [reflexivity |]. split; [reflexivity |].
  split; [intros k Hk; now apply lookup_delete_ne |].
  intros user body now q rest Hitems.
  unfold Routes.postOrder. rewrite Hitems. simpl.
  rewrite lookup_delete_eq. reflexivity.
Qed.

Lemma deleted_product_is_not_found_witness :
  Routes.postOrder (ProductRoutes.deleteProduct widgetDb 1).1 9 negativeLine
    may1
  = ((ProductRoutes.deleteProduct widgetDb 1).1,
     JsonMessage 400 (ProductNotFoundMsg 1)).
Proof.
  destruct (deleted_product_is_not_found widgetDb 1 widget) as (_ & _ & _ & H);
    [reflexivity |].
  apply (H 9%nat negativeLine may1 (-2) []). reflexivity.
Defined.

(** ** The routes keep the stored documents valid *)

Lemma handle_suppliers (db : Db) (request : Request) :
  suppliersValid db -> suppliersValid (handle db request).
Proof.
  intros Hss. unfold suppliersValid.
  destruct request; simpl.
  - unfold Routes.putProductStock.
    destruct (products db !! id) as [p |]; [| exact Hss].
    destruct (Product.updateStock _ _ _ _ _); exact Hss.
  - unfold Routes.putSupplierBalance.
    destruct (suppliers db !! id) as [s |]; [| exact Hss].
    destruct (Supplier.updateBalance _ _ _ _ _) as [ss | e] eqn:E;
      [| exact Hss].
    unfold Supplier.updateBalance in E.
    repeat (destruct (decide _) in E);
      exact (save_allValid Supplier.validate _ _ _ _ Hss E).
  - unfold Routes.postOrder.
    destruct (Routes.reserveItems _ _ _ _) as [ps [ois sub | status m]];
      [| exact Hss].
    destruct (Order.create _ _ _) as [[os oid] | e]; exact Hss.
  - unfold Routes.putOrderStatus.
    destruct (Order.findById (orders db) id) as [o |]; [| exact Hss].
    destruct (Order.updateStatus _ _ _ _ _); exact Hss.
  - unfold Routes.putOrder.
    destruct (Order.findById (orders db) id) as [o |]; [| exact Hss].
    destruct (negb _); [exact Hss |].
    destruct (save _ _ _ _); exact Hss.
  - unfold Routes.deleteOrder.
    destruct (Order.findById (orders db) id) as [o |]; [| exact Hss].
    destruct (if _ || _ then _ else _) as [[ps | e] rest]; exact Hss.
  - unfold ProductRoutes.deleteProduct.
    destruct (products db !! id); exact Hss.
  - unfold SupplierRoutes.deleteSupplier.
    destruct (suppliers db !! id) as [s |]; [| exact Hss].
    destruct (0 <? _); [exact Hss |].
    exact (delete_allValid Supplier.validate _ _ Hss).
Qed.

Lemma handle_products_orders (db : Db) (request : Request) :
  productsValid db -> ordersValid db ->
  productsValid (handle db request) /\ ordersValid (handle db request).
Proof.
  intros Hps Hos.
  destruct (handlers_keep_documents_valid db Hps Hos)
    as (Hstock & Hpost & Hstatus & Hedit & Hdelete).
  destruct request; simpl.
  - apply Hstock.
  - unfold Routes.putSupplierBalance.
    destruct (suppliers db !! id) as [s |]; [| auto].
    destruct (Supplier.updateBalance _ _ _ _ _); auto.
  - apply Hpost.
  - apply Hstatus.
  - apply Hedit.
  - apply Hdelete.
  - unfold ProductRoutes.deleteProduct.
    destruct (products db !! id); [| auto].
    split; [| exact Hos].
    exact (delete_allValid Product.validate _ _ Hps).
  - unfold SupplierRoutes.deleteSupplier.
    destruct (suppliers db !! id) as [s |]; [| auto].
    destruct (0 <? _); auto.
Qed.

(** X22.  Schema validity is an invariant of the modelled routes: from a
    database whose products, suppliers and orders all pass their schemas,
    any sequence of requests (stock and balance updates, order creation,
    status change, edit and deletion, product and supplier deletion,
    whether they succeed or fail) leads to such a database; in particular
    no persisted on-hand quantity is ever negative. *)
Theorem requests_keep_documents_valid (db : Db) (requests : list Request) :
  productsValid db -> suppliersValid db -> ordersValid db ->
  productsValid (run db requests) /\ suppliersValid (run db requests) /\
  ordersValid (run db requests) /\ stockNonneg (run db requests).
Proof.
  revert db. unfold run.
  induction requests as [| request rest IH]; intros db Hps Hss Hos; simpl.
  - repeat (split; [assumption |]).
    intros id p Hp. pose proof (Hps id p Hp) as Hv.
    apply Product_validate_nil in Hv. tauto.
  - destruct (handle_products_orders db request Hps Hos) as [Hps' Hos'].
    apply IH; [exact Hps' | now apply handle_suppliers | exact Hos'].
Qed.

Lemma requests_keep_documents_valid_witness :
  stockNonneg
    (run shopDb
       [PostOrder 9 twoLines may1; PutProductStock 1 9 (Some "subtract");
        PostOrder 9 negativeLine may1; DeleteOrder placedId;
        DeleteProduct 2]).
Proof.
  apply requests_keep_documents_valid.
  - exact productsValid_shopDb.
  - intros id s Hlook. vm_compute in Hlook. discriminate.
  - intros id o Hlook. vm_compute in Hlook. discriminate.
Defined.
